(** * pkgsite frontend: URL resolution, fetch-with-fallback, tab selection
      and license redistributability

    A shallow embedding of [internal/frontend/details.go] and of the
    evaluator exercised by [internal/license_test.go].  Go strings are byte
    sequences and are modelled by [string] (a sequence of 8-bit [ascii]);
    Go [int] results of the string library are modelled in [Z]; a Go
    [error] value is [option error] ([None] is [nil]); the data source the
    handlers talk to is threaded explicitly as a world state. *)

From Stdlib Require Import ZArith Ascii String List Bool Lia.
From stdpp Require Import base option list strings gmap.

Local Open Scope string_scope.
#[local] Arguments String.append !_ _ / : simpl nomatch.

(** ** The Go [strings] package, as far as details.go uses it *)

Module GoStrings.

(** [len(s)] *)
Definition len (s : string) : nat := String.length s.

(** [strings.HasPrefix(s, prefix)] *)
Fixpoint HasPrefix (s prefix : string) {struct prefix} : bool :=
  match prefix, s with
  | EmptyString, _ => true
  | String _ _, EmptyString => false
  | String b prefix', String a s' => Ascii.eqb a b && HasPrefix s' prefix'
  end.

(** [s[n:]] for [n <= len(s)] *)
Fixpoint drop_bytes (n : nat) (s : string) : string :=
  match n, s with
  | O, _ => s
  | S n', String _ s' => drop_bytes n' s'
  | S _, EmptyString => EmptyString
  end.

(** [s[:n]] for [n <= len(s)] *)
Fixpoint take_bytes (n : nat) (s : string) : string :=
  match n, s with
  | O, _ => EmptyString
  | S n', String a s' => String a (take_bytes n' s')
  | S _, EmptyString => EmptyString
  end.

(** [strings.TrimPrefix(s, prefix)]:
    [if HasPrefix(s, prefix) { return s[len(prefix):] }; return s] *)
Definition TrimPrefix (s prefix : string) : string :=
  if HasPrefix s prefix then drop_bytes (len prefix) s else s.

(** [strings.HasSuffix(s, suffix)]:
    [len(s) >= len(suffix) && s[len(s)-len(suffix):] == suffix] *)
Definition HasSuffix (s suffix : string) : bool :=
  (len suffix <=? len s)%nat &&
  String.eqb (drop_bytes (len s - len suffix) s) suffix.

(** [strings.TrimSuffix(s, suffix)]:
    [if HasSuffix(s, suffix) { return s[:len(s)-len(suffix)] }; return s] *)
Definition TrimSuffix (s suffix : string) : string :=
  if HasSuffix s suffix then take_bytes (len s - len suffix) s else s.

(** [strings.IndexByte(s, c)]: index of the first [c], or [-1]. *)
Fixpoint IndexByte (s : string) (c : ascii) : Z :=
  match s with
  | EmptyString => (-1)%Z
  | String a s' =>
      if Ascii.eqb a c then 0%Z
      else let i := IndexByte s' c in
           if (i =? -1)%Z then (-1)%Z else (i + 1)%Z
  end.

(** [strings.Contains(s, substr)] *)
Fixpoint Contains (s substr : string) : bool :=
  HasPrefix s substr ||
  match s with
  | EmptyString => false
  | String _ s' => Contains s' substr
  end.

(** [strings.Count(s, sep)] for a one-byte separator. *)
Fixpoint Count (s : string) (sep : ascii) : nat :=
  match s with
  | EmptyString => O
  | String a s' => (if Ascii.eqb a sep then 1 else 0) + Count s' sep
  end.

(** The step of [genSplit]'s loop for a one-byte separator:
    [m := Index(s, sep)]; when [m >= 0] the pair [(s[:m], s[m+1:])]. *)
Fixpoint cut (s : string) (sep : ascii) : option (string * string) :=
  match s with
  | EmptyString => None
  | String a s' =>
      if Ascii.eqb a sep then Some (EmptyString, s')
      else match cut s' sep with
           | Some (before, after) => Some (String a before, after)
           | None => None
           end
  end.

(** [genSplit(s, sep, 0, n)] for [n >= 0] and a one-byte separator: at most
    [n] pieces, the last one the unsplit remainder; [n = 0] gives [nil]. *)
Fixpoint genSplit (s : string) (sep : ascii) (n : nat) : list string :=
  match n with
  | O => []
  | S O => [s]
  | S n' =>
      match cut s sep with
      | None => [s]
      | Some (before, after) => before :: genSplit after sep n'
      end
  end.

(** [strings.SplitN(s, sep, n)] with [n >= 0]. *)
Definition SplitN (s : string) (sep : ascii) (n : nat) : list string :=
  genSplit s sep n.

(** [strings.Split(s, sep)] is [genSplit(s, sep, 0, -1)], and a negative
    count is replaced by [Count(s, sep) + 1]. *)
Definition Split (s : string) (sep : ascii) : list string :=
  genSplit s sep (Count s sep + 1).

(** [strings.Join(elems, sep)] *)
Fixpoint Join (elems : list string) (sep : string) : string :=
  match elems with
  | [] => EmptyString
  | [a] => a
  | a :: rest => a ++ sep ++ Join rest sep
  end.

(** ASCII part of [unicode.ToUpper]. *)
Definition upper (a : ascii) : ascii :=
  let n := nat_of_ascii a in
  if ((97 <=? n) && (n <=? 122))%nat then ascii_of_nat (n - 32) else a.

(** [isSeparator] of the strings package, on ASCII: letters, digits and the
    underscore are not separators, every other byte is. *)
Definition isSeparator (a : ascii) : bool :=
  let n := nat_of_ascii a in
  negb (((48 <=? n) && (n <=? 57)) || ((65 <=? n) && (n <=? 90)) ||
        ((97 <=? n) && (n <=? 122)) || (n =? 95))%nat.

Fixpoint title_from (prev : ascii) (s : string) : string :=
  match s with
  | EmptyString => EmptyString
  | String a s' =>
      String (if isSeparator prev then upper a else a) (title_from a s')
  end.

(** [strings.Title(s)] on ASCII input: the first letter of every word is
    upper-cased; the scan starts as if after a space. *)
Definition Title (s : string) : string := title_from " "%char s.

End GoStrings.

Import GoStrings.

(** ** Errors *)

(** A Go [error] value.  [NotFound] is the sentinel [derrors.NotFound];
    [Errorf] is an error built by [fmt.Errorf] (no chain to its arguments);
    [Wrap] is [xerrors.Errorf("%s: %w", msg, e)], as [derrors.Wrap] builds
    it, which keeps [e] reachable for [xerrors.Is]. *)
Inductive error : Type :=
  | NotFound
  | Errorf (msg : string)
  | Wrap (msg : string) (e : error).

(** [err.Error()] *)
Fixpoint Error (e : error) : string :=
  match e with
  | NotFound => "not found"
  | Errorf msg => msg
  | Wrap msg e' => msg ++ ": " ++ Error e'
  end.

(** [xerrors.Is(err, derrors.NotFound)]: follows the chain of wrapped
    errors down to the sentinel. *)
Fixpoint Is_NotFound (e : error) : bool :=
  match e with
  | NotFound => true
  | Errorf _ => false
  | Wrap _ e' => Is_NotFound e'
  end.

(** ** Constants and functions of sibling packages *)

(** [unknownModulePath] (details.go, line 30). *)
Definition unknownModulePath : string := "<unknown>".

(** Modelled from the spec: the constant [internal.LatestVersion] is
    declared in package internal, outside the sources at hand; the spec
    calls it the latest sentinel literal and writes it [latest]. *)
Definition LatestVersion : string := "latest".

(** Modelled from the spec: the constant [stdlib.ModulePath] is declared in
    package stdlib, outside the sources at hand; the spec calls it the
    standard-library sentinel, and the handlers serve it under [/std]. *)
Definition stdlib_ModulePath : string := "std".

(** Functions that details.go calls and that live in packages outside the
    sources at hand.  They are taken as they come: every definition below
    is parametric in them. *)
Class ThirdParty : Type := {
  (** [module.CheckImportPath(path)]; [None] is a [nil] error. *)
  CheckImportPath : string -> option error;
  (** [semver.IsValid(v)] *)
  semver_IsValid : string -> bool;
  (** [suggestedSearch(path)], a piece of HTML. *)
  suggestedSearch : string -> string;
  (** The verb [%q] of package fmt on a string ([strconv.Quote]). *)
  Quote : string -> string
}.

(** [net/http] status codes. *)
Definition StatusOK : Z := 200.
Definition StatusMovedPermanently : Z := 301.
Definition StatusSeeOther : Z := 303.
Definition StatusBadRequest : Z := 400.
Definition StatusNotFound : Z := 404.
Definition StatusInternalServerError : Z := 500.

(** The double-quote byte (34), for messages that contain it. *)
Definition dquote : string := String (ascii_of_nat 34) EmptyString.

(** ** URL construction and parsing *)

(** [constructModuleURL] (details.go, lines 144-154). *)
Definition constructModuleURL (modulePath version : string) : string :=
  let url := "/" in
  let url := if negb (String.eqb modulePath stdlib_ModulePath)
             then url ++ "mod/" else url in
  let url := url ++ modulePath in
  if negb (String.eqb version LatestVersion) then url ++ "@" ++ version
  else url.

(** [constructPackageURL] (details.go, lines 156-164). *)
Definition constructPackageURL (pkgPath modulePath version : string) : string :=
  if String.eqb version LatestVersion then "/" ++ pkgPath
  else if String.eqb pkgPath modulePath || String.eqb modulePath stdlib_ModulePath
  then "/" ++ pkgPath ++ "@" ++ version
  else "/" ++ modulePath ++ "@" ++ version ++ "/" ++
       TrimPrefix pkgPath (modulePath ++ "/").

(** [inStdLib] (details.go, lines 553-558). *)
Definition inStdLib (path : string) : bool :=
  let i := IndexByte path "/"%char in
  if negb (i =? -1)%Z then negb (Contains (take_bytes (Z.to_nat i) path) ".")
  else negb (Contains path ".").

(** The three results of [parseDetailsURLPath] before validation: the
    branch on [len(parts)] (details.go, lines 358-376).  [parts[0]],
    [parts[1]] and [endParts[0]] on a slice too short panic in Go; the
    model answers [None] there. *)
Definition splitDetailsURLPath (urlPath : string)
  : option (string * string * string) :=
  let parts := SplitN urlPath "@"%char 2 in
  match parts with
  | [] => None
  | parts0 :: parts_tl =>
      let basePath := TrimSuffix (TrimPrefix parts0 "/") "/" in
      match parts_tl with
      | [] => Some (basePath, unknownModulePath, LatestVersion)
      | parts1 :: _ =>
          let endParts := Split parts1 "/"%char in
          match endParts with
          | [] => None
          | version :: endParts_tl =>
              let suffix := Join endParts_tl "/" in
              if String.eqb suffix "" || String.eqb version LatestVersion
              then Some (basePath, unknownModulePath, version)
              else Some (basePath ++ "/" ++ suffix, basePath, version)
          end
      end
  end.

(** Outcome of a function that returns values and an [error]; [Panic] is
    a Go run-time panic (index out of range). *)
Inductive result (A : Type) : Type :=
  | Ok (a : A)
  | Err (e : error)
  | Panic.
Arguments Ok {A} a.
Arguments Err {A} e.
Arguments Panic {A}.

(** [parseDetailsURLPath] (details.go, lines 348-384), results in the order
    [(pkgPath, modulePath, version)].  The deferred [derrors.Wrap] prefixes
    a returned error with the call. *)
Definition parseDetailsURLPath `{ThirdParty} (urlPath : string)
  : result (string * string * string) :=
  match splitDetailsURLPath urlPath with
  | None => Panic
  | Some (pkgPath, modulePath, version) =>
      match CheckImportPath pkgPath with
      | Some err =>
          Err (Wrap ("parseDetailsURLPath(" ++ Quote urlPath ++ ")")
                 (Errorf ("malformed path " ++ Quote pkgPath ++ ": " ++ Error err)))
      | None =>
          let modulePath :=
            if inStdLib pkgPath then stdlib_ModulePath else modulePath in
          Ok (pkgPath, modulePath, version)
      end
  end.

(** ** Effects: calls into the data source *)

(** A computation that may read and change the state [St] of the world
    (the data source and the local variables a closure captures). *)
Definition M (St A : Type) : Type := St -> A * St.

Definition ret {St A} (a : A) : M St A := fun s => (a, s).

Definition bind {St A B} (m : M St A) (k : A -> M St B) : M St B :=
  fun s => let (a, s') := m s in k a s'.

Declare Scope go_scope.
Delimit Scope go_scope with go.
Notation "x <- m ;; k" := (bind m (fun x => k))
  (at level 20, m at level 99, k at level 200, only parsing) : go_scope.
Notation "' pat <- m ;; k" := (bind m (fun x => match x with pat => k end))
  (at level 20, pat pattern, m at level 99, k at level 200, only parsing)
  : go_scope.

(** [errorPage]: the payload handed to the error template
    (notfound.tmpl shows [.Message] and [.SecondaryMessage]). *)
Record errorPage : Type := {
  Message : string;
  SecondaryMessage : string
}.

(** [fetchPackageOrModule] (details.go, lines 177-236).  [ds] is passed as
    its one method used here, [IsExcluded]; [get] is the caller's closure.
    The result is the status code and the [*errorPage] ([None] is [nil]).
    Calls of package log are not modelled. *)
Definition fetchPackageOrModule `{ThirdParty} {St : Type}
    (IsExcluded : string -> M St (bool * option error))
    (namespace path version : string)
    (get : string -> M St (option error))
  : M St (Z * option errorPage) :=
  if negb (String.eqb version LatestVersion) && negb (semver_IsValid version)
  then
    let epage :=
      {| Message := Quote version ++ " is not a valid semantic version.";
         SecondaryMessage := "" |} in
    let epage :=
      if String.eqb namespace "pkg"
      then {| Message := Message epage;
              SecondaryMessage := suggestedSearch path |}
      else epage in
    ret (StatusBadRequest, Some epage)
  else
    ('(excluded, err) <- IsExcluded path ;;
     match err with
     | Some _ => ret (StatusInternalServerError, None)
     | None =>
     if excluded : bool then ret (StatusNotFound, None)
     else
       err <- get version ;;
       match err with
       | None => ret (StatusOK, None)
       | Some err =>
       if negb (Is_NotFound err) then ret (StatusInternalServerError, None)
       else if String.eqb version LatestVersion then ret (StatusNotFound, None)
       else
         err <- get LatestVersion ;;
         match err with
         | Some _ => ret (StatusNotFound, None)
         | None =>
           let word := "package" in
           let urlPath := "/" ++ path in
           let '(word, urlPath) :=
             if String.eqb namespace "mod" then ("module", "/mod/" ++ path)
             else (word, urlPath) in
           let epage :=
             {| Message := Title word ++ " " ++ path ++ "@" ++ version ++
                           " is not available.";
                SecondaryMessage :=
                  "There are other versions of this " ++ word ++
                  " that are! To view them, <a href=" ++ dquote ++ urlPath ++
                  "?tab=versions" ++ dquote ++ ">click here</a>.</p>" |} in
           ret (StatusSeeOther, Some epage)
         end
       end
     end)%go.

(** ** Tab registries *)

(** [TabSettings] (details.go, lines 387-401). *)
Record TabSettings : Type := {
  Name : string;
  DisplayName : string;
  AlwaysShowDetails : bool;
  TemplateName : string
}.

(** The zero value of [TabSettings], which a Go map yields for an absent
    key. *)
Definition zeroTabSettings : TabSettings :=
  {| Name := ""; DisplayName := ""; AlwaysShowDetails := false;
     TemplateName := "" |}.

(** [packageTabSettings] (details.go, lines 404-444). *)
Definition packageTabSettings : list TabSettings := [
  {| Name := "doc"; DisplayName := "Doc"; AlwaysShowDetails := false;
     TemplateName := "pkg_doc.tmpl" |};
  {| Name := "readme"; DisplayName := "README"; AlwaysShowDetails := false;
     TemplateName := "readme.tmpl" |};
  {| Name := "subdirectories"; DisplayName := "Subdirectories";
     AlwaysShowDetails := true; TemplateName := "subdirectories.tmpl" |};
  {| Name := "versions"; DisplayName := "Versions";
     AlwaysShowDetails := true; TemplateName := "versions.tmpl" |};
  {| Name := "imports"; DisplayName := "Imports";
     AlwaysShowDetails := true; TemplateName := "pkg_imports.tmpl" |};
  {| Name := "importedby"; DisplayName := "Imported By";
     AlwaysShowDetails := true; TemplateName := "pkg_importedby.tmpl" |};
  {| Name := "licenses"; DisplayName := "Licenses";
     AlwaysShowDetails := false; TemplateName := "licenses.tmpl" |}
].

(** [moduleTabSettings] (details.go, lines 447-470). *)
Definition moduleTabSettings : list TabSettings := [
  {| Name := "readme"; DisplayName := "README"; AlwaysShowDetails := false;
     TemplateName := "readme.tmpl" |};
  {| Name := "packages"; DisplayName := "Packages";
     AlwaysShowDetails := true; TemplateName := "subdirectories.tmpl" |};
  {| Name := "versions"; DisplayName := "Versions";
     AlwaysShowDetails := true; TemplateName := "versions.tmpl" |};
  {| Name := "licenses"; DisplayName := "Licenses";
     AlwaysShowDetails := false; TemplateName := "licenses.tmpl" |}
].

(** One loop of [init] (details.go, lines 474-481):
    [for _, d := range settings { lookup[d.Name] = d }] on an empty map. *)
Definition initTabLookup (settings : list TabSettings)
  : gmap string TabSettings :=
  foldl (fun lookup d => <[Name d := d]> lookup) ∅ settings.

Definition packageTabLookup : gmap string TabSettings :=
  initTabLookup packageTabSettings.

Definition moduleTabLookup : gmap string TabSettings :=
  initTabLookup moduleTabSettings.

(** [m[key]] on a Go map: the zero value when the key is absent. *)
Definition tabAt (m : gmap string TabSettings) (key : string) : TabSettings :=
  default zeroTabSettings (m !! key).

(** Tab selection of [servePackagePage] (details.go, lines 108-118):
    [tab] is [r.FormValue("tab")], [isRedistributable] is what
    [pkg.IsRedistributable()] answers.  Results: the tab, its settings and
    [canShowDetails]. *)
Definition servePackagePage_tab (tab : string) (isRedistributable : bool)
  : string * TabSettings * bool :=
  let '(tab, settings) :=
    match packageTabLookup !! tab with
    | Some settings => (tab, settings)
    | None =>
        let tab := if isRedistributable then "doc" else "subdirectories" in
        (tab, tabAt packageTabLookup tab)
    end in
  let canShowDetails := isRedistributable || AlwaysShowDetails settings in
  (tab, settings, canShowDetails).

(** Tab selection of [handleModuleDetails] (details.go, lines 290-298);
    [isRedistributable] is [modHeader.IsRedistributable]. *)
Definition handleModuleDetails_tab (tab : string) (isRedistributable : bool)
  : string * TabSettings * bool :=
  let '(tab, settings) :=
    match moduleTabLookup !! tab with
    | Some settings => (tab, settings)
    | None => ("readme", tabAt moduleTabLookup "readme")
    end in
  let canShowDetails := isRedistributable || AlwaysShowDetails settings in
  (tab, settings, canShowDetails).

(** ** The package-details handler *)

(** The methods of the [DataSource] interface that [handlePackageDetails]
    reaches.  [World] is the state of the data source, [Pkg] stands for
    [*internal.VersionedPackage]. *)
Class DataSource (World Pkg : Type) : Type := {
  IsExcluded : string -> M World (bool * option error);
  GetPackage : string -> string -> M World (option Pkg * option error);
  GetPackageInModuleVersion :
    string -> string -> string -> M World (option Pkg * option error)
}.

(** What a handler does with the response: each constructor is one of the
    calls that end [handlePackageDetails]; [panicked] is a run-time panic
    of the handler. *)
Inductive response (Pkg : Type) : Type :=
  | panicked
  | staticPageHandler (template title : string)
  | handleModuleDetails
  | serveErrorPage (code : Z) (epage : option errorPage)
  | Redirect (url : string) (code : Z)
  | servePackagePage (pkg : option Pkg)
  | serveDirectoryPage (pkgPath version : string).
Arguments panicked {Pkg}.
Arguments staticPageHandler {Pkg}.
Arguments handleModuleDetails {Pkg}.
Arguments serveErrorPage {Pkg}.
Arguments Redirect {Pkg}.
Arguments servePackagePage {Pkg}.
Arguments serveDirectoryPage {Pkg}.

(** A call into the data source from a closure: the captured variables
    (second component) are left alone. *)
Definition call {World Var A} (m : M World A) : M (World * Var) A :=
  fun s => let (a, w) := m (fst s) in (a, (w, snd s)).

(** Assignment to the captured variable. *)
Definition assign {World Var} (v : Var) : M (World * Var) unit :=
  fun s => (tt, (fst s, v)).

(** [handlePackageDetails] (details.go, lines 53-96) on [r.URL.Path].  The
    variable [pkg], which the closure handed to [fetchPackageOrModule]
    assigns, is the second component of the state; it starts [nil]. *)
Definition handlePackageDetails `{ThirdParty} {World Pkg : Type}
    `{DataSource World Pkg} (urlPath : string)
  : M World (response Pkg) :=
  fun w =>
  if String.eqb urlPath "/"
  then (staticPageHandler "index.tmpl" "Go Discovery", w)
  else if String.eqb urlPath "/std" || HasPrefix urlPath "/std@v"
  then (handleModuleDetails, w)
  else
    match parseDetailsURLPath urlPath with
    | Panic => (panicked, w)
    | Err _ => (serveErrorPage StatusBadRequest None, w)
    | Ok (pkgPath, modulePath, version) =>
        if String.eqb pkgPath "C"
        then (Redirect "https://golang.org/doc/articles/c_go_cgo.html"
                StatusMovedPermanently, w)
        else
          let get (ver : string) : M (World * option Pkg) (option error) :=
            ('(p, err) <-
               call (if String.eqb modulePath unknownModulePath ||
                        String.eqb modulePath stdlib_ModulePath
                     then GetPackage pkgPath ver
                     else GetPackageInModuleVersion pkgPath modulePath ver) ;;
             _ <- assign p ;;
             ret err)%go in
          let '((code, epage), (w', pkg)) :=
            fetchPackageOrModule (fun p => call (IsExcluded p))
              "pkg" pkgPath version get (w, None) in
          if (code =? StatusOK)%Z then (servePackagePage pkg, w')
          else if negb (code =? StatusNotFound)%Z
          then (serveErrorPage code epage, w')
          else (serveDirectoryPage pkgPath version, w')
    end.

(** ** Package path of the Go library, as far as details.go uses it *)

Module GoPath.

(** [strings.LastIndex(s, sep)] for a one-byte separator: index of the
    last [c], or [-1]. *)
Fixpoint LastIndexByte (s : string) (c : ascii) : Z :=
  match s with
  | EmptyString => (-1)%Z
  | String a s' =>
      let i := LastIndexByte s' c in
      if negb (i =? -1)%Z then (i + 1)%Z
      else if Ascii.eqb a c then 0%Z else (-1)%Z
  end.

(** [path.Split(path)]: [i := strings.LastIndex(path, "/")], then
    [path[:i+1], path[i+1:]]. *)
Definition Split (path : string) : string * string :=
  let i := LastIndexByte path "/"%char in
  (take_bytes (Z.to_nat (i + 1)) path, drop_bytes (Z.to_nat (i + 1)) path).

(** One element of the path in [path.Clean].  [out] holds the elements
    written so far; the first [dotdot] of them are [..] elements that a
    later [..] must not remove. *)
Definition cleanStep (rooted : bool) (st : list string * nat) (elem : string)
  : list string * nat :=
  let '(out, dotdot) := st in
  if String.eqb elem "" then st
  else if String.eqb elem "." then st
  else if String.eqb elem ".." then
    if (dotdot <? length out)%nat then (removelast out, dotdot)
    else if negb rooted then ((out ++ [".."])%list, S (length out))
    else st
  else ((out ++ [elem])%list, dotdot).

(** [path.Clean(path)]: empty elements and [.] elements go, a [..]
    removes the element before it, a [..] that has nothing to remove stays
    in a relative path and goes in a rooted one; the empty result is
    [.]. *)
Definition Clean (path : string) : string :=
  if String.eqb path "" then "."
  else
    let rooted := HasPrefix path "/" in
    let '(out, _) :=
      foldl (cleanStep rooted) ([], O) (GoStrings.Split path "/"%char) in
    let s := (if rooted then "/" else "") ++ Join out "/" in
    if String.eqb s "" then "." else s.

(** [path.Dir(path)]: [dir, _ := Split(path); return Clean(dir)]. *)
Definition Dir (path : string) : string := Clean (fst (Split path)).

(** The loop of [path.Base] that strips trailing slashes. *)
Fixpoint stripTrailingSlashes (path : string) : string :=
  match path with
  | EmptyString => EmptyString
  | String a path' =>
      let t := stripTrailingSlashes path' in
      if String.eqb t "" && Ascii.eqb a "/"%char then EmptyString
      else String a t
  end.

(** [path.Base(path)] *)
Definition Base (path : string) : string :=
  if String.eqb path "" then "."
  else
    let path := stripTrailingSlashes path in
    let i := LastIndexByte path "/"%char in
    let path := if (0 <=? i)%Z then drop_bytes (Z.to_nat (i + 1)) path
                else path in
    if String.eqb path "" then "/" else path.

End GoPath.

(** ** License redistributability *)

Module License.

(** [LicenseInfo], as the test table of license_test.go builds it:
    [{Type: ..., FilePath: ...}]. *)
Record LicenseInfo : Type := {
  Type_ : string;
  FilePath : string
}.

(** Modelled from the spec: the directory of a license file is its path
    without the last segment, and [.] for a file at the root (the call
    that computes it is in the missing function body).  It is computed
    with [path.Dir], as details.go computes the directory of the same file
    paths (line 521). *)
Definition Dir (filePath : string) : string := GoPath.Dir filePath.

(** Records partitioned by directory: directory to the license types found
    in it, in the order of the records. *)
Definition byDir (licenses : list LicenseInfo) : gmap string (list string) :=
  foldl (fun (m : gmap string (list string)) l =>
           <[Dir (FilePath l) :=
               (default [] (m !! Dir (FilePath l)) ++ [Type_ l])%list]> m)
        ∅ licenses.

(** A directory is compliant when one of its license types is on the
    allow-list; matching is by string identity. *)
Definition compliant (allow : gset string) (types : list string) : bool :=
  existsb (fun t => bool_decide (t ∈ allow)) types.

(** Every directory that has records is compliant. *)
Definition allCompliant (allow : gset string) (m : gmap string (list string))
  : bool :=
  forallb (fun kv => compliant allow (snd kv)) (map_to_list m).

(** Modelled from the spec: the body of [licensesAreRedistributable] is
    outside the sources at hand, only its test table
    (TestLicensesAreRedistributable in license_test.go) is there.  The
    rule is the one the spec words: the records are partitioned by
    directory, and the entity is redistributable when every directory that
    has records holds a type of the allow-list [allow], which is injected,
    and at least one directory has records at all. *)
Definition licensesAreRedistributable (allow : gset string)
    (licenses : list LicenseInfo) : bool :=
  let m := byDir licenses in
  allCompliant allow m && negb (bool_decide (m = ∅)).

(** The table of [TestLicensesAreRedistributable] (license_test.go, lines
    10-61): label, licenses, want. *)
Definition tests : list (string * list LicenseInfo * bool) := [
  ("redistributable license",
   [ {| Type_ := "MIT"; FilePath := "LICENSE" |} ], true);
  ("no redistributable license at root",
   [ {| Type_ := "MIT"; FilePath := "bar/LICENSE" |} ], false);
  ("no license", [], false);
  ("non-redistributable license",
   [ {| Type_ := "AGPL-3.0"; FilePath := "LICENSE" |} ], false);
  ("multiple redistributable",
   [ {| Type_ := "BSD-3-Clause"; FilePath := "LICENSE" |};
     {| Type_ := "MIT"; FilePath := "bar/LICENSE" |} ], true);
  ("not all redistributable",
   [ {| Type_ := "BSD-3-Clause"; FilePath := "LICENSE" |};
     {| Type_ := "AGPL-3.0"; FilePath := "foo/LICENSE" |};
     {| Type_ := "MIT"; FilePath := "foo/bar/LICENSE" |} ], false);
  ("at least one redistributable per directory",
   [ {| Type_ := "BSD-3-Clause"; FilePath := "LICENSE" |};
     {| Type_ := "BSD-0-Clause"; FilePath := "LICENSE.txt" |};
     {| Type_ := "AGPL-3.0"; FilePath := "foo/LICENSE" |};
     {| Type_ := "MIT"; FilePath := "foo/COPYING" |} ], true)
].

(** The loop of the test: every case gets what it wants. *)
Definition testsPass (f : list LicenseInfo -> bool) : bool :=
  forallb (fun t => Bool.eqb (f (snd (fst t))) (snd t)) tests.

End License.

(** ** Instances used to run the definitions on concrete inputs *)

Module Sample.

(** A checker for the path syntax of the spec,
    [<segment>(/<segment>)*]: every segment is non-empty and no byte is an
    at sign. *)
Definition checkSegments (path : string) : option error :=
  if forallb (fun seg => negb (String.eqb seg "")) (Split path "/"%char)
     && negb (Contains path "@")
  then None else Some (Errorf "malformed import path").

(** Versions that start with the letter v count as valid. *)
Definition startsWithV (v : string) : bool := HasPrefix v "v".

#[export] Instance thirdParty : ThirdParty := {|
  CheckImportPath := checkSegments;
  semver_IsValid := startsWithV;
  suggestedSearch := fun path => "search " ++ path;
  Quote := fun s => dquote ++ s ++ dquote
|}.

(** A data source given by three tables: excluded paths, the (path,
    version) pairs that have a package, and the calls it received. *)
Record world : Type := {
  excludedPaths : list string;
  packages : list (string * string);
  calls : list string
}.

Definition logCall (c : string) (w : world) : world :=
  {| excludedPaths := excludedPaths w; packages := packages w;
     calls := (calls w ++ [c])%list |}.

Definition lookupPackage (path ver : string)
  : M world (option (string * string) * option error) :=
  fun w =>
    (if bool_decide ((path, ver) ∈ packages w)
     then (Some (path, ver), None) else (None, Some NotFound),
     logCall ("get " ++ path ++ "@" ++ ver) w).

#[export] Instance dataSource : DataSource world (string * string) := {|
  IsExcluded := fun path w =>
    ((bool_decide (path ∈ excludedPaths w), None), w);
  GetPackage := lookupPackage;
  GetPackageInModuleVersion := fun path _ ver => lookupPackage path ver
|}.

(** The closure a handler passes as [get]: look the package up, keep the
    error. *)
Definition getPackage (path : string) (ver : string) : M world (option error) :=
  fun w => let '((_, err), w') := lookupPackage path ver w in (err, w').

(** A data source that excludes [bad.com/x] and has [fmt] and
    [github.com/x/y] at the latest version only. *)
Definition w0 : world :=
  {| excludedPaths := ["bad.com/x"];
     packages := [("fmt", "latest"); ("github.com/x/y", "latest")];
     calls := [] |}.

(** The allow-list used for the test table. *)
Definition allow : gset string := {[ "MIT"; "BSD-3-Clause"; "Apache-2.0" ]}.

(** One evaluator that meets every row of the test table: the rule of the
    spec under the sample allow-list, with a record required in the root
    directory. *)
Definition rootRequired (licenses : list License.LicenseInfo) : bool :=
  License.licensesAreRedistributable allow licenses &&
  bool_decide (is_Some (License.byDir licenses !! ".")).

End Sample.

(** ** Vocabulary of the statements *)

(** The first slash-separated segment of a path. *)
Definition firstSegment (path : string) : string :=
  hd "" (Split path "/"%char).

(** A URL path with one leading and one trailing slash removed, as
    [parseDetailsURLPath] computes [basePath]. *)
Definition trimSlashes (urlPath : string) : string :=
  TrimSuffix (TrimPrefix urlPath "/") "/".

(** What the statements below need to know of an import path that
    [module.CheckImportPath] accepts: it follows the path syntax of the
    spec, [<segment>(/<segment>)*] with non-empty segments, and holds no at
    sign. *)
Class CheckImportPathSyntax `{ThirdParty} : Prop := {
  accepted_segments : forall path,
    CheckImportPath path = None ->
    Forall (fun seg => seg <> "") (Split path "/"%char);
  accepted_no_at : forall path,
    CheckImportPath path = None -> Contains path "@" = false
}.

(** [get] with a log of the versions it was called with. *)
Definition logged {St : Type} (get : string -> M St (option error))
  : string -> M (St * list string) (option error) :=
  fun ver s =>
    let (err, s') := get ver (fst s) in (err, (s', (snd s ++ [ver])%list)).

Module LicenseSpec.
Import License.





End LicenseSpec.

(** ** The rest of details.go *)

From Stdlib Require DecimalString.

(** [template.HTMLEscapeString(s)]: the five special bytes of HTML become
    entities and the zero byte becomes the replacement character. *)
Fixpoint HTMLEscapeString (s : string) : string :=
  match s with
  | EmptyString => EmptyString
  | String a s' =>
      (if Ascii.eqb a "&"%char then "&amp;"
       else if Ascii.eqb a "'"%char then "&#39;"
       else if Ascii.eqb a "<"%char then "&lt;"
       else if Ascii.eqb a ">"%char then "&gt;"
       else if Ascii.eqb a (ascii_of_nat 34) then "&#34;"
       else if Ascii.eqb a (ascii_of_nat 0)
       then String (ascii_of_nat 239)
              (String (ascii_of_nat 191) (String (ascii_of_nat 189) ""))
       else String a "")
      ++ HTMLEscapeString s'
  end.

(** The verb [%d] of package fmt on an [int]. *)
Definition Itoa (n : Z) : string :=
  DecimalString.NilZero.string_of_int (Z.to_int n).

(** *** Detail fetchers *)

(** The functions the two [fetchDetailsFor...] switches delegate to. *)
Inductive fetcher : Type :=
  | fetchDocumentationDetails
  | fetchPackageVersionsDetails
  | fetchPackageDirectoryDetails
  | fetchImportsDetails
  | fetchImportedByDetails
  | fetchPackageLicensesDetails
  | fetchReadMeDetails
  | fetchModuleDirectoryDetails
  | transformLicenses
  | fetchModuleVersionsDetails.

(** The error after both switches. *)
Definition unknownTab `{ThirdParty} (tab : string) : error :=
  Errorf ("BUG: unable to fetch details: unknown tab " ++ Quote tab).

(** The switch of [fetchDetailsForPackage] (details.go, lines 240-258):
    the function the tab delegates to, or the error for an unknown tab. *)
Definition fetchDetailsForPackage `{ThirdParty} (tab : string)
  : fetcher + error :=
  if String.eqb tab "doc" then inl fetchDocumentationDetails
  else if String.eqb tab "versions" then inl fetchPackageVersionsDetails
  else if String.eqb tab "subdirectories" then inl fetchPackageDirectoryDetails
  else if String.eqb tab "imports" then inl fetchImportsDetails
  else if String.eqb tab "importedby" then inl fetchImportedByDetails
  else if String.eqb tab "licenses" then inl fetchPackageLicensesDetails
  else if String.eqb tab "readme" then inl fetchReadMeDetails
  else inr (unknownTab tab).

(** The switch of [fetchDetailsForModule] (details.go, lines 324-337);
    the [licenses] case builds its payload in place from
    [transformLicenses]. *)
Definition fetchDetailsForModule `{ThirdParty} (tab : string)
  : fetcher + error :=
  if String.eqb tab "packages" then inl fetchModuleDirectoryDetails
  else if String.eqb tab "licenses" then inl transformLicenses
  else if String.eqb tab "versions" then inl fetchModuleVersionsDetails
  else if String.eqb tab "readme" then inl fetchReadMeDetails
  else inr (unknownTab tab).

(** *** The module-details handler *)

Module ModuleHandler.

(** The fields of [internal.VersionInfo] that the handler reads. *)
Record VersionInfo : Type := {
  ModulePath : string;
  Version : string
}.

(** What [handleModuleDetails] needs beyond [IsExcluded]: two methods of
    the data source, [license.AreRedistributable] on the metadata of the
    licenses, and the run of a detail fetcher, of which the handler only
    looks at the error.  [Lic] stands for [*license.License]. *)
Class ModuleSource (World Lic : Type) : Type := {
  GetVersionInfo :
    string -> string -> M World (option VersionInfo * option error);
  GetModuleLicenses : string -> string -> M World (list Lic * option error);
  AreRedistributable : list Lic -> bool;
  runFetcher : fetcher -> VersionInfo -> list Lic -> M World (option error)
}.

(** The calls that end [handleModuleDetails]; [servePage] carries the
    template name and, of the page, the tab, its settings, whether details
    were fetched and [CanShowDetails]. *)
Inductive response : Type :=
  | panicked
  | serveErrorPage (code : Z) (epage : option errorPage)
  | servePage (templateName tab : string) (settings : TabSettings)
      (hasDetails canShowDetails : bool).

(** [handleModuleDetails] (details.go, lines 262-320) on [r.URL.Path] and
    [r.FormValue("tab")].  The variable [moduleVersion] that the closure
    assigns is the second component of the state during the fetch; reading
    a field of it when it is [nil] panics. *)
Definition handleModuleDetails `{ThirdParty} {World Pkg Lic : Type}
    `{DataSource World Pkg} `{ModuleSource World Lic}
    (urlPath tab : string) : M World response :=
  fun w =>
  let urlPath := TrimPrefix urlPath "/mod" in
  match parseDetailsURLPath urlPath with
  | Panic => (panicked, w)
  | Err _ => (serveErrorPage StatusBadRequest None, w)
  | Ok (path, _, version) =>
      let get (ver : string) : M (World * option VersionInfo) (option error) :=
        ('(vi, err) <- call (GetVersionInfo path ver) ;;
         _ <- assign vi ;;
         ret err)%go in
      let '((code, epage), (w, moduleVersion)) :=
        fetchPackageOrModule (fun p => call (IsExcluded p))
          "mod" path version get (w, None) in
      if negb (code =? StatusOK)%Z then (serveErrorPage code epage, w)
      else
        match moduleVersion with
        | None => (panicked, w)
        | Some moduleVersion =>
            let '((licenses, err), w) :=
              GetModuleLicenses (ModulePath moduleVersion)
                (Version moduleVersion) w in
            match err with
            | Some _ => (serveErrorPage StatusInternalServerError None, w)
            | None =>
                let '(tab, settings, canShowDetails) :=
                  handleModuleDetails_tab tab (AreRedistributable licenses) in
                if canShowDetails then
                  match fetchDetailsForModule tab with
                  | inr _ =>
                      (serveErrorPage StatusInternalServerError None, w)
                  | inl f =>
                      let '(err, w) := runFetcher f moduleVersion licenses w in
                      match err with
                      | Some _ =>
                          (serveErrorPage StatusInternalServerError None, w)
                      | None =>
                          (servePage (TemplateName settings) tab settings
                             true canShowDetails, w)
                      end
                  end
                else
                  (servePage (TemplateName settings) tab settings
                     false canShowDetails, w)
            end
        end
  end.

End ModuleHandler.

(** *** Titles and elapsed time *)

Module Internal.

(** The fields of [internal.Package] that [effectiveName] reads. *)
Record Package : Type := {
  Name : string;
  Path : string
}.

End Internal.

(** [effectiveName] (details.go, lines 561-573).  [SplitPathVersion] is
    [module.SplitPathVersion], of a package outside the sources at hand;
    the slice [pkg.Path[len(pkg.Path)-3:]] panics when the path has fewer
    than three bytes. *)
Definition effectiveName
    (SplitPathVersion : string -> string * string * bool)
    (pkg : Internal.Package) : result string :=
  if negb (String.eqb (Internal.Name pkg) "main") then Ok (Internal.Name pkg)
  else
    let path := Internal.Path pkg in
    if (len path <? 3)%nat then Panic
    else
      let prefix :=
        if String.eqb (drop_bytes (len path - 3) path) "/v1"
        then take_bytes (len path - 3) path
        else fst (fst (SplitPathVersion path)) in
      Ok (snd (GoPath.Split prefix)).

(** [packageTitle] (details.go, lines 577-582). *)
Definition packageTitle
    (SplitPathVersion : string -> string * string * bool)
    (pkg : Internal.Package) : result string :=
  if negb (String.eqb (Internal.Name pkg) "main")
  then Ok ("Package " ++ Internal.Name pkg)
  else match effectiveName SplitPathVersion pkg with
       | Ok name => Ok ("Command " ++ name)
       | Err e => Err e
       | Panic => Panic
       end.

(** The suffix that [createPackage] shows for a package (details.go,
    lines 514-517): the path below the module path, or the effective name
    marked as root. *)
Definition createPackage_suffix
    (SplitPathVersion : string -> string * string * bool)
    (pkg : Internal.Package) (modulePath : string) : result string :=
  let suffix :=
    TrimPrefix (TrimPrefix (Internal.Path pkg) modulePath) "/" in
  if String.eqb suffix "" then
    match effectiveName SplitPathVersion pkg with
    | Ok name => Ok (name ++ " (root)")
    | Err e => Err e
    | Panic => Panic
    end
  else Ok suffix.

(** [elapsedTime] (details.go, lines 644-662) after its two calls of
    package time: [elapsedHours] is [int(time.Since(date).Hours())] and
    [formatted] is [date.Format("Jan _2, 2006")].  The division of two
    [int]s truncates. *)
Definition elapsedTime (elapsedHours : Z) (formatted : string) : string :=
  if (elapsedHours =? 1)%Z then "1 hour ago"
  else if (elapsedHours <? 6)%Z then Itoa elapsedHours ++ " hours ago"
  else
    let elapsedDays := Z.quot elapsedHours 24 in
    if (elapsedDays <? 1)%Z then "today"
    else if (elapsedDays =? 1)%Z then "1 day ago"
    else if (elapsedDays <? 6)%Z then Itoa elapsedDays ++ " days ago"
    else formatted.

(** *** Breadcrumbs *)

(** The first loop of [breadcrumbPath] (details.go, line 600):
    [for dir := pkgPath; len(dir) > minLen && len(path.Dir(dir)) < len(dir);
    dir = path.Dir(dir)].  Every turn shortens [dir], so [fuel] turns
    with [fuel] above the length of [dir] are enough. *)
Fixpoint breadcrumbDirs (fuel : nat) (dir : string) (minLen : Z)
  : list string :=
  match fuel with
  | O => []
  | S fuel' =>
      if (minLen <? Z.of_nat (len dir))%Z &&
         (len (GoPath.Dir dir) <? len dir)%nat
      then dir :: breadcrumbDirs fuel' (GoPath.Dir dir) minLen
      else []
  end.

(** The element of the current page. *)
Definition breadcrumbCurrent (d : string) : string :=
  "<span class=" ++ dquote ++ "DetailsHeader-breadcrumbCurrent" ++ dquote ++
  ">" ++ d ++ "</span>".

(** The element of a parent: a link. *)
Definition breadcrumbLink (href el : string) : string :=
  "<a href=" ++ dquote ++ HTMLEscapeString href ++ dquote ++ ">" ++
  HTMLEscapeString el ++ "</a>".

Definition breadcrumbDivider : string :=
  "<span class=" ++ dquote ++ "DetailsHeader-breadcrumbDivider" ++ dquote ++
  ">/</span>".

(** One turn of the second loop of [breadcrumbPath] (details.go, lines
    614-624), for index [i]. *)
Definition breadcrumbElem (dirs : list string) (version : string)
    (elems : list string) (i : nat) : list string :=
  match dirs !! i with
  | None => elems
  | Some diri =>
      let href := "/" ++ diri in
      let href := if negb (String.eqb version LatestVersion)
                  then href ++ "@" ++ version else href in
      let el := if negb (i =? length dirs - 1)%nat then GoPath.Base diri
                else diri in
      <[(length elems - i - 1)%nat := breadcrumbLink href el]> elems
  end.

(** [breadcrumbPath] (details.go, lines 592-628).  [dirs[0]] on an empty
    slice panics. *)
Definition breadcrumbPath (pkgPath modPath version : string) : result string :=
  let minLen := (Z.of_nat (len modPath) - 1)%Z in
  let minLen := if String.eqb modPath stdlib_ModulePath then 1%Z else minLen in
  let dirs := breadcrumbDirs (S (len pkgPath)) pkgPath minLen in
  let elems := replicate (length dirs) "" in
  match dirs with
  | [] => Panic
  | d :: _ =>
      let d := if (1 <? length dirs)%nat then GoPath.Base d else d in
      let elems := <[(length elems - 1)%nat := breadcrumbCurrent d]> elems in
      let elems :=
        foldl (breadcrumbElem dirs version) elems
          (seq 1 (length dirs - 1)) in
      Ok ("<div class=" ++ dquote ++ "DetailsHeader-breadcrumb" ++ dquote ++
          ">" ++ Join elems breadcrumbDivider ++ "</div>")
  end.

(** The link target of a breadcrumb: the directory, with the version
    unless it is the latest sentinel. *)
Definition breadcrumbHref (dir version : string) : string :=
  let href := "/" ++ dir in
  if negb (String.eqb version LatestVersion) then href ++ "@" ++ version
  else href.

(** The whole breadcrumb around its elements. *)
Definition breadcrumbDiv (elems : list string) : string :=
  "<div class=" ++ dquote ++ "DetailsHeader-breadcrumb" ++ dquote ++
  ">" ++ Join elems breadcrumbDivider ++ "</div>".

(** A path element that [path.Clean] keeps as it is. *)
Definition realSegment (seg : string) : Prop :=
  seg <> "" /\ seg <> "." /\ seg <> "..".

(** A relative path in the form [path.Clean] leaves it in: slash-separated
    elements, none of them empty, [.] or [..]. *)
Definition cleanPath (path : string) : Prop :=
  Forall realSegment (GoStrings.Split path "/"%char).

(** *** More instances for concrete runs *)

Module SampleModule.
Import ModuleHandler.

(** A module data source over the sample world: the only module is
    [github.com/x/y], at [v1.0.0], which is also its latest version; its
    licenses are a list of license types, redistributable when MIT is
    among them; every fetcher succeeds and is logged. *)
Definition lookupVersion (path ver : string)
  : M Sample.world (option VersionInfo * option error) :=
  fun w =>
    (if String.eqb path "github.com/x/y" &&
        (String.eqb ver "v1.0.0" || String.eqb ver LatestVersion)
     then (Some {| ModulePath := path; Version := "v1.0.0" |}, None)
     else (None, Some NotFound),
     Sample.logCall ("version " ++ path ++ "@" ++ ver) w).

#[export] Instance moduleSource : ModuleSource Sample.world string := {|
  GetVersionInfo := lookupVersion;
  GetModuleLicenses := fun path ver w =>
    ((["AGPL-3.0"], None), Sample.logCall ("licenses " ++ path ++ "@" ++ ver) w);
  AreRedistributable := fun licenses => bool_decide ("MIT" ∈ licenses);
  runFetcher := fun f vi licenses w => (None, Sample.logCall "fetch" w)
|}.

(** The sample data source with [GetPackageInModuleVersion] out of
    order. *)
Definition brokenInModule : DataSource Sample.world (string * string) := {|
  IsExcluded := @IsExcluded _ _ Sample.dataSource;
  GetPackage := @GetPackage _ _ Sample.dataSource;
  GetPackageInModuleVersion := fun _ _ _ w => ((None, Some (Errorf "down")), w)
|}.

(** The sample data source with [GetPackage] out of order. *)
Definition brokenGetPackage : DataSource Sample.world (string * string) := {|
  IsExcluded := @IsExcluded _ _ Sample.dataSource;
  GetPackage := fun _ _ w => ((None, Some (Errorf "down")), w);
  GetPackageInModuleVersion :=
    @GetPackageInModuleVersion _ _ Sample.dataSource
|}.

(** [module.SplitPathVersion] for the runs: no version suffix is
    recognised. *)
Definition noPathVersion (path : string) : string * string * bool :=
  (path, "", true).

End SampleModule.

(** * Properties *)

(** ** Facts about the string library *)

Module GoStringsFacts.

Lemma ascii_eqb_true (a b : ascii) : Ascii.eqb a b = true <-> a = b.
Proof. apply Ascii.eqb_eq. Qed.

Lemma len_app (a b : string) : len (a ++ b) = (len a + len b)%nat.
Proof. induction a as [|c a IH]; simpl; [reflexivity|]. unfold len in *. simpl. now rewrite IH. Qed.

Lemma app_empty_r (a : string) : a ++ "" = a.
Proof. induction a as [|c a IH]; simpl; [reflexivity | now rewrite IH]. Qed.

Lemma app_assoc (a b c : string) : (a ++ b) ++ c = a ++ b ++ c.
Proof. induction a as [|x a IH]; simpl; [reflexivity | now rewrite IH]. Qed.

Lemma take_drop (n : nat) (s : string) : take_bytes n s ++ drop_bytes n s = s.
Proof.
  revert s; induction n as [|n IH]; intros [|c s]; simpl; try reflexivity.
  now rewrite IH.
Qed.

Lemma drop_app (a b : string) : drop_bytes (len a) (a ++ b) = b.
Proof. induction a as [|c a IH]; simpl; [reflexivity | exact IH]. Qed.

Lemma take_app (a b : string) : take_bytes (len a) (a ++ b) = a.
Proof. induction a as [|c a IH]; simpl; [reflexivity | now rewrite IH]. Qed.

Lemma HasPrefix_app (a b : string) : HasPrefix (a ++ b) a = true.
Proof.
  induction a as [|c a IH]; simpl; [reflexivity|].
  now rewrite Ascii.eqb_refl, IH.
Qed.

Lemma HasPrefix_inv (s p : string) :
  HasPrefix s p = true -> s = p ++ drop_bytes (len p) s.
Proof.
  revert s; induction p as [|b p IH]; intros s H; simpl in *; [reflexivity|].
  destruct s as [|a s]; [discriminate|].
  apply andb_true_iff in H as [Hab Hp].
  apply Ascii.eqb_eq in Hab; subst b.
  simpl. f_equal. now apply IH.
Qed.

Lemma TrimPrefix_app (a b : string) : TrimPrefix (a ++ b) a = b.
Proof. unfold TrimPrefix. now rewrite HasPrefix_app, drop_app. Qed.

Lemma HasSuffix_inv (s suffix : string) :
  HasSuffix s suffix = true ->
  s = take_bytes (len s - len suffix) s ++ suffix.
Proof.
  unfold HasSuffix. intros H. apply andb_true_iff in H as [_ H].
  apply String.eqb_eq in H.
  set (n := (len s - len suffix)%nat) in *.
  rewrite <- (take_drop n s) at 1. now rewrite H.
Qed.

Lemma TrimSuffix_keeps (s suffix : string) :
  HasSuffix s suffix = false -> TrimSuffix s suffix = s.
Proof. unfold TrimSuffix. now intros ->. Qed.

Lemma Count_app (a b : string) (c : ascii) :
  Count (a ++ b) c = (Count a c + Count b c)%nat.
Proof. induction a as [|x a IH]; simpl; [reflexivity | rewrite IH; lia]. Qed.

Lemma Contains_byte (s : string) (c : ascii) :
  Contains s (String c "") = false <-> Count s c = 0%nat.
Proof.
  induction s as [|a s IH]; simpl; [tauto|].
  destruct (Ascii.eqb a c); simpl.
  - split; [discriminate | lia].
  - exact IH.
Qed.

Lemma cut_none (s : string) (c : ascii) :
  Count s c = 0%nat -> cut s c = None.
Proof.
  induction s as [|a s IH]; simpl; [reflexivity|].
  destruct (Ascii.eqb a c); simpl; [lia|].
  intros H. now rewrite IH.
Qed.

Lemma cut_app (a b : string) (c : ascii) :
  Count a c = 0%nat -> cut (a ++ String c b) c = Some (a, b).
Proof.
  induction a as [|x a IH]; simpl.
  - now rewrite Ascii.eqb_refl.
  - destruct (Ascii.eqb x c); simpl; [lia|].
    intros H. now rewrite IH.
Qed.

Lemma cut_some (s a b : string) (c : ascii) :
  cut s c = Some (a, b) -> s = a ++ String c b /\ Count a c = 0%nat.
Proof.
  revert a; induction s as [|x s IH]; intros a; simpl; [discriminate|].
  destruct (Ascii.eqb x c) eqn:E.
  - apply Ascii.eqb_eq in E; subst x. now intros [= <- <-].
  - destruct (cut s c) as [[a' b']|]; [|discriminate].
    intros [= <- <-]. destruct (IH a' eq_refl) as [-> Hc].
    simpl. now rewrite E.
Qed.

Lemma SplitN_no_sep (s : string) (c : ascii) :
  Count s c = 0%nat -> SplitN s c 2 = [s].
Proof. intros H. unfold SplitN; simpl. now rewrite cut_none. Qed.

Lemma SplitN_first_sep (a b : string) (c : ascii) :
  Count a c = 0%nat -> SplitN (a ++ String c b) c 2 = [a; b].
Proof. intros H. unfold SplitN; simpl. now rewrite cut_app. Qed.


Lemma genSplit_nonempty (s : string) (c : ascii) (n : nat) :
  genSplit s c (S n) <> [].
Proof.
  destruct n as [|n]; simpl; [discriminate|].
  now destruct (cut s c) as [[? ?]|].
Qed.


Lemma Split_no_sep (s : string) (c : ascii) :
  Count s c = 0%nat -> Split s c = [s].
Proof. intros H. unfold Split. now rewrite H. Qed.

Lemma Split_first_sep (a b : string) (c : ascii) :
  Count a c = 0%nat -> Split (a ++ String c b) c = a :: Split b c.
Proof.
  intros H. unfold Split. rewrite Count_app, H. simpl.
  rewrite Ascii.eqb_refl. simpl.
  rewrite Nat.add_1_r. simpl. now rewrite cut_app.
Qed.

Lemma Join_cons (a : string) (rest : list string) (sep : string) :
  rest <> [] -> Join (a :: rest) sep = a ++ sep ++ Join rest sep.
Proof. now destruct rest. Qed.

Lemma Join_genSplit (s : string) (c : ascii) (n : nat) :
  Join (genSplit s c (S n)) (String c "") = s.
Proof.
  revert s; induction n as [|n IH]; intros s; [reflexivity|].
  change (genSplit s c (S (S n))) with
    (match cut s c with
     | None => [s]
     | Some (before, after) => before :: genSplit after c (S n)
     end).
  destruct (cut s c) as [[a b]|] eqn:E; [|reflexivity].
  rewrite Join_cons by apply genSplit_nonempty.
  rewrite IH. now apply cut_some in E as [-> _].
Qed.

Lemma Join_Split (s : string) (c : ascii) :
  Join (Split s c) (String c "") = s.
Proof. unfold Split. rewrite Nat.add_1_r. apply Join_genSplit. Qed.

End GoStringsFacts.

Module SplitFacts.
Import GoStringsFacts.

Lemma cut_of_count (s : string) (c : ascii) :
  Count s c <> 0%nat ->
  exists a b, s = a ++ String c b /\ Count a c = 0%nat.
Proof.
  induction s as [|x s IH]; simpl; [congruence|].
  destruct (Ascii.eqb x c) eqn:E; intros H.
  - apply Ascii.eqb_eq in E; subst x. now exists "", s.
  - destruct (IH H) as (a & b & -> & Ha).
    exists (String x a), b. split; [reflexivity|]. simpl. now rewrite E.
Qed.

Lemma Split_app_sep (a b : string) (c : ascii) :
  Split (a ++ String c b) c = (Split a c ++ Split b c)%list.
Proof.
  remember (Count a c) as k eqn:Hk. revert a Hk.
  induction k as [|k IH]; intros a Hk.
  - rewrite Split_first_sep by congruence.
    now rewrite (Split_no_sep a) by congruence.
  - destruct (cut_of_count a c) as (a1 & a2 & -> & Ha1); [congruence|].
    rewrite Count_app, Ha1 in Hk. simpl in Hk.
    rewrite Ascii.eqb_refl in Hk.
    rewrite app_assoc. simpl.
    rewrite (Split_first_sep a1 (a2 ++ String c b)) by assumption.
    rewrite (Split_first_sep a1 a2) by assumption.
    rewrite IH by lia. reflexivity.
Qed.

Lemma Split_hd (s : string) (c : ascii) :
  hd "" (Split s c) =
  match cut s c with None => s | Some (a, _) => a end.
Proof.
  unfold Split. rewrite Nat.add_1_r.
  destruct (Count s c) as [|k] eqn:Hk.
  - now rewrite cut_none.
  - change (genSplit s c (S (S k))) with
      (match cut s c with
       | None => [s]
       | Some (before, after) => before :: genSplit after c (S k)
       end).
    now destruct (cut s c) as [[? ?]|].
Qed.

Lemma IndexByte_cut (s : string) (c : ascii) :
  IndexByte s c =
  match cut s c with None => (-1)%Z | Some (a, _) => Z.of_nat (len a) end.
Proof.
  induction s as [|x s IH]; simpl; [reflexivity|].
  destruct (Ascii.eqb x c); [reflexivity|].
  rewrite IH. destruct (cut s c) as [[a b]|]; [|reflexivity].
  destruct (Z.eqb_spec (Z.of_nat (len a)) (-1)); [lia|].
  unfold len; simpl. lia.
Qed.

(** A path that ends with the separator has an empty last segment. *)
Lemma Split_trailing_sep (s : string) (c : ascii) :
  HasSuffix s (String c "") = true -> In "" (Split s c).
Proof.
  intros H. apply HasSuffix_inv in H. rewrite H.
  rewrite Split_app_sep. apply in_or_app. right. now left.
Qed.

(** Two separators in a row enclose an empty segment. *)
Lemma Split_double_sep (a b : string) (c : ascii) :
  In "" (Split (a ++ String c (String c b)) c).
Proof.
  rewrite Split_app_sep. apply in_or_app. right.
  change (String c b) with ("" ++ String c b).
  rewrite Split_first_sep by reflexivity. now left.
Qed.

Lemma segments_no_trailing_slash (p : string) :
  Forall (fun seg => seg <> "") (Split p "/"%char) ->
  HasSuffix p "/" = false.
Proof.
  intros Hall. destruct (HasSuffix p "/") eqn:E; [|reflexivity].
  apply Split_trailing_sep in E.
  rewrite Forall_forall in Hall. apply list_elem_of_In in E.
  now apply Hall in E.
Qed.

Lemma segments_prefix_no_trailing_slash (m s : string) :
  Forall (fun seg => seg <> "") (Split (m ++ "/" ++ s) "/"%char) ->
  HasSuffix m "/" = false.
Proof.
  intros Hall. destruct (HasSuffix m "/") eqn:E; [|reflexivity].
  apply HasSuffix_inv in E. rewrite E in Hall.
  rewrite app_assoc in Hall. simpl in Hall.
  pose proof (Split_double_sep (take_bytes (len m - len "/") m) s "/"%char) as Hin.
  rewrite Forall_forall in Hall. apply list_elem_of_In in Hin.
  now apply Hall in Hin.
Qed.

End SplitFacts.

(** ** URL parsing *)

Section ParseProperties.
Context `{T : ThirdParty}.
Import GoStringsFacts SplitFacts.


Lemma splitDetailsURLPath_no_version (urlPath : string) :
  Count urlPath "@"%char = 0%nat ->
  splitDetailsURLPath urlPath =
  Some (trimSlashes urlPath, unknownModulePath, LatestVersion).
Proof.
  intros H. unfold splitDetailsURLPath. now rewrite SplitN_no_sep.
Qed.

Lemma splitDetailsURLPath_version_only (base v : string) :
  Count base "@"%char = 0%nat -> Count v "/"%char = 0%nat ->
  splitDetailsURLPath (base ++ String "@" v) =
  Some (trimSlashes base, unknownModulePath, v).
Proof.
  intros Hb Hv. unfold splitDetailsURLPath.
  rewrite SplitN_first_sep by assumption.
  now rewrite Split_no_sep.
Qed.

Lemma splitDetailsURLPath_version_suffix (base v s : string) :
  Count base "@"%char = 0%nat -> Count v "/"%char = 0%nat ->
  s <> "" -> v <> LatestVersion ->
  splitDetailsURLPath (base ++ String "@" (v ++ String "/" s)) =
  Some (trimSlashes base ++ "/" ++ s, trimSlashes base, v).
Proof.
  intros Hb Hv Hs Hl. unfold splitDetailsURLPath.
  rewrite SplitN_first_sep by assumption.
  rewrite Split_first_sep by assumption.
  rewrite Join_Split.
  apply String.eqb_neq in Hs, Hl. now rewrite Hs, Hl.
Qed.

(** [modulePath] before the override is the unknown sentinel or the base
    path, and then [pkgPath] is the base path, a slash and a suffix. *)
Lemma splitDetailsURLPath_shape (urlPath pkgPath modulePath version : string) :
  splitDetailsURLPath urlPath = Some (pkgPath, modulePath, version) ->
  modulePath = unknownModulePath \/
  exists suffix, pkgPath = modulePath ++ "/" ++ suffix.
Proof.
  unfold splitDetailsURLPath.
  destruct (SplitN urlPath "@"%char 2) as [|parts0 [|parts1 rest]];
    [discriminate | intros [= <- <- <-]; now left |].
  destruct (Split parts1 "/"%char) as [|ver tl]; [discriminate|].
  destruct (_ || _); intros [= <- <- <-]; [now left | right; eauto].
Qed.

Lemma parse_of_split (urlPath pkgPath modulePath version : string) :
  splitDetailsURLPath urlPath = Some (pkgPath, modulePath, version) ->
  CheckImportPath pkgPath = None ->
  parseDetailsURLPath urlPath =
  Ok (pkgPath,
      if inStdLib pkgPath then stdlib_ModulePath else modulePath,
      version).
Proof. intros Hs Hc. unfold parseDetailsURLPath. now rewrite Hs, Hc. Qed.


Lemma parse_ok_inv (urlPath pkgPath modulePath version : string) :
  parseDetailsURLPath urlPath = Ok (pkgPath, modulePath, version) ->
  exists modulePath0,
    splitDetailsURLPath urlPath = Some (pkgPath, modulePath0, version) /\
    CheckImportPath pkgPath = None /\
    modulePath = if inStdLib pkgPath then stdlib_ModulePath else modulePath0.
Proof.
  unfold parseDetailsURLPath.
  destruct (splitDetailsURLPath urlPath) as [[[p m0] v]|]; [|discriminate].
  destruct (CheckImportPath p) eqn:Hc; [discriminate|].
  intros [= <- <- <-]. now exists m0.
Qed.

(** [inStdLib] looks at the first slash-separated segment: it answers
    whether that segment is free of dots. *)
Lemma inStdLib_firstSegment (path : string) :
  inStdLib path = negb (Contains (firstSegment path) ".").
Proof.
  unfold inStdLib, firstSegment.
  rewrite IndexByte_cut, Split_hd.
  destruct (cut path "/"%char) as [[a b]|] eqn:E; [|reflexivity].
  apply cut_some in E as [-> _].
  destruct (Z.eqb_spec (Z.of_nat (len a)) (-1)); [lia|]. simpl negb.
  now rewrite Nat2Z.id, take_app.
Qed.

(** C5 (as amended): for every URL path without an at sign whose trimmed
    form is a well-formed import path, [parseDetailsURLPath] succeeds with
    that trimmed form as package path and the latest sentinel as version;
    the module path is the unknown sentinel when the first segment of the
    path contains a dot, and the standard-library module path when it does
    not. *)
Theorem parse_without_version (urlPath : string) :
  Contains urlPath "@" = false ->
  CheckImportPath (trimSlashes urlPath) = None ->
  parseDetailsURLPath urlPath =
  Ok (trimSlashes urlPath,
      if Contains (firstSegment (trimSlashes urlPath)) "."
      then unknownModulePath else stdlib_ModulePath,
      LatestVersion).
Proof.
  intros Hat Hcheck. apply Contains_byte in Hat.
  rewrite (parse_of_split _ _ _ _ (splitDetailsURLPath_no_version _ Hat) Hcheck).
  rewrite inStdLib_firstSegment. now destruct (Contains _ ".").
Qed.

(** C6: when a URL path parses, a package path whose first
    slash-separated segment has no dot gets the standard-library module
    path, whatever the split computed; when the first segment has a dot,
    the module path is the one the split computed, and it is not the
    standard-library module path. *)
Theorem parse_stdlib_override (urlPath pkgPath modulePath version : string) :
  parseDetailsURLPath urlPath = Ok (pkgPath, modulePath, version) ->
  (Contains (firstSegment pkgPath) "." = false ->
   modulePath = stdlib_ModulePath) /\
  (Contains (firstSegment pkgPath) "." = true ->
   splitDetailsURLPath urlPath = Some (pkgPath, modulePath, version) /\
   modulePath <> stdlib_ModulePath).
Proof.
  intros Hparse.
  destruct (parse_ok_inv _ _ _ _ Hparse) as (m0 & Hsplit & _ & ->).
  rewrite inStdLib_firstSegment.
  split; intros Hdot; rewrite Hdot; simpl; [reflexivity|].
  split; [assumption|].
  destruct (splitDetailsURLPath_shape _ _ _ _ Hsplit) as [-> | [suffix ->]];
    [discriminate|].
  intros ->. unfold firstSegment in Hdot.
  rewrite Split_hd in Hdot. simpl in Hdot.
  vm_compute in Hdot. discriminate.
Qed.

(** C4 (as amended): when the checker accepts the two import paths,
    [/a/b@v1.2.3/c] parses to package path [a/b/c] and version [v1.2.3],
    and [/a/b@v1.2.3] to package path [a/b] and version [v1.2.3]; in both
    the module path is the standard-library module path, because the first
    segment [a] has no dot.  Before that override the split gives module
    path [a/b] for the first and the unknown sentinel for the second. *)
Theorem parse_versioned_examples :
  CheckImportPath "a/b/c" = None ->
  CheckImportPath "a/b" = None ->
  parseDetailsURLPath "/a/b@v1.2.3/c" = Ok ("a/b/c", stdlib_ModulePath, "v1.2.3") /\
  parseDetailsURLPath "/a/b@v1.2.3" = Ok ("a/b", stdlib_ModulePath, "v1.2.3") /\
  splitDetailsURLPath "/a/b@v1.2.3/c" = Some ("a/b/c", "a/b", "v1.2.3") /\
  splitDetailsURLPath "/a/b@v1.2.3" = Some ("a/b", unknownModulePath, "v1.2.3").
Proof.
  intros Habc Hab.
  assert (H1 : splitDetailsURLPath "/a/b@v1.2.3/c" = Some ("a/b/c", "a/b", "v1.2.3"))
    by (vm_compute; reflexivity).
  assert (H2 : splitDetailsURLPath "/a/b@v1.2.3" = Some ("a/b", unknownModulePath, "v1.2.3"))
    by (vm_compute; reflexivity).
  repeat split; try assumption.
  - now rewrite (parse_of_split _ _ _ _ H1 Habc).
  - now rewrite (parse_of_split _ _ _ _ H2 Hab).
Qed.

(** C10: round trip.  For a well-formed package path [p], a module path
    [m] that is [p], the standard-library module path, or such that [m/]
    is a proper prefix of [p], and a version [v] that is the latest
    sentinel or a valid semantic version without a slash, parsing
    [constructPackageURL p m v] succeeds and gives back [p] and [v]. *)
Theorem parse_constructPackageURL `{!CheckImportPathSyntax} (p m v : string) :
  CheckImportPath p = None ->
  m = p \/ m = stdlib_ModulePath \/
    (HasPrefix p (m ++ "/") = true /\ m ++ "/" <> p) ->
  v = LatestVersion \/ (semver_IsValid v = true /\ Contains v "/" = false) ->
  exists modulePath,
    parseDetailsURLPath (constructPackageURL p m v) = Ok (p, modulePath, v).
Proof.
  intros Hp Hm Hv.
  pose proof (accepted_segments p Hp) as Hseg.
  pose proof (accepted_no_at p Hp) as Hat. apply Contains_byte in Hat.
  pose proof (segments_no_trailing_slash p Hseg) as Hend.
  enough (exists m0, splitDetailsURLPath (constructPackageURL p m v)
                     = Some (p, m0, v)) as [m0 Hs]
    by (eexists; exact (parse_of_split _ _ _ _ Hs Hp)).
  unfold constructPackageURL.
  destruct (String.eqb_spec v LatestVersion) as [-> | Hlatest].
  - exists unknownModulePath.
    rewrite splitDetailsURLPath_no_version by (simpl; exact Hat).
    unfold trimSlashes. simpl.
    change (TrimPrefix (String "/" p) "/") with p.
    now rewrite TrimSuffix_keeps.
  - destruct Hv as [-> | [_ Hslash]]; [congruence|].
    apply Contains_byte in Hslash.
    destruct (String.eqb p m || String.eqb m stdlib_ModulePath) eqn:Hmod.
    + exists unknownModulePath.
      change ("/" ++ p ++ "@" ++ v) with (String "/" p ++ String "@" v).
      rewrite splitDetailsURLPath_version_only by (simpl; assumption).
      unfold trimSlashes.
      change (TrimPrefix (String "/" p) "/") with p.
      now rewrite TrimSuffix_keeps.
    + apply orb_false_iff in Hmod as [Hpm Hstd].
      apply String.eqb_neq in Hpm, Hstd.
      destruct Hm as [-> | [-> | [Hpre Hproper]]]; [congruence | congruence |].
      exists m. apply HasPrefix_inv in Hpre.
      set (s := drop_bytes (len (m ++ "/")) p) in *.
      assert (Hs : TrimPrefix p (m ++ "/") = s)
        by (rewrite Hpre at 1; apply TrimPrefix_app).
      rewrite Hs. clearbody s. rewrite app_assoc in Hpre.
      assert (Hne : s <> "").
      { intros E. apply Hproper. rewrite E in Hpre. symmetry. exact Hpre. }
      assert (Hm_at : Count m "@"%char = 0%nat).
      { rewrite Hpre, Count_app in Hat. lia. }
      assert (Hm_end : HasSuffix m "/" = false).
      { apply (segments_prefix_no_trailing_slash m s). now rewrite <- Hpre. }
      change ("/" ++ m ++ "@" ++ v ++ "/" ++ s)
        with (String "/" m ++ String "@" (v ++ String "/" s)).
      rewrite splitDetailsURLPath_version_suffix by (simpl; assumption).
      unfold trimSlashes.
      change (TrimPrefix (String "/" m) "/") with m.
      rewrite TrimSuffix_keeps by assumption.
      now rewrite Hpre.
Qed.

End ParseProperties.

(** ** Fetch with fallback *)

Section FetchProperties.
Context `{T : ThirdParty}.

Lemma version_check_passes (version : string) :
  version = LatestVersion \/ semver_IsValid version = true ->
  negb (String.eqb version LatestVersion) && negb (semver_IsValid version)
  = false.
Proof.
  intros [-> | ->]; [reflexivity|]. simpl. apply andb_false_r.
Qed.

(** C3: for a specific (non-latest) version whose first lookup fails with
    a not-found error, a successful second lookup with the latest sentinel
    gives status SeeOther and a non-nil error page, whose message says
    that the package or module is not available at that version, and a
    second lookup
    that fails, for whatever reason, gives status NotFound and a nil
    page.  The first lookup takes place when the version is a valid
    semantic version and the path is not excluded. *)
Theorem fetch_retry_latest {St : Type}
    (isExcluded : string -> M St (bool * option error))
    (namespace path version : string) (get : string -> M St (option error))
    (s s1 s2 : St) (e : error) :
  version <> LatestVersion ->
  semver_IsValid version = true ->
  isExcluded path s = ((false, None), s1) ->
  get version s1 = (Some e, s2) ->
  Is_NotFound e = true ->
  (forall s3, get LatestVersion s2 = (None, s3) ->
     exists epage,
       fetchPackageOrModule isExcluded namespace path version get s
       = ((StatusSeeOther, Some epage), s3) /\
       Message epage =
       (if String.eqb namespace "mod" then "Module " else "Package ") ++
       path ++ "@" ++ version ++ " is not available.") /\
  (forall e' s3, get LatestVersion s2 = (Some e', s3) ->
     fetchPackageOrModule isExcluded namespace path version get s
     = ((StatusNotFound, None), s3)).
Proof.
  intros Hspecific Hvalid Hexcl Hfirst Hnf.
  unfold fetchPackageOrModule.
  rewrite version_check_passes by now right.
  apply String.eqb_neq in Hspecific.
  unfold bind, ret. rewrite Hexcl, Hfirst, Hnf, Hspecific. simpl.
  split.
  - intros s3 ->. destruct (String.eqb namespace "mod"); eexists; split;
      reflexivity.
  - now intros e' s3 ->.
Qed.

(** C7 (as amended): a path that the data source excludes and the same
    path in a data source that does not exclude it and where every lookup
    fails with not-found get the same status and page, for every version;
    and when the version is the latest sentinel or a valid semantic
    version that result is NotFound with a nil page, reached without a
    call of the lookup function (its log is unchanged and the state is
    the one the exclusion check left). *)
Theorem fetch_excluded {St St' : Type}
    (isExcluded : string -> M St (bool * option error))
    (isExcluded' : string -> M St' (bool * option error))
    (namespace path version : string)
    (get : string -> M St (option error))
    (get' : string -> M St' (option error))
    (s s1 : St) (s' s1' : St') (log : list string) :
  isExcluded path s = ((true, None), s1) ->
  isExcluded' path s' = ((false, None), s1') ->
  (forall ver st, exists e st',
      get' ver st = (Some e, st') /\ Is_NotFound e = true) ->
  fst (fetchPackageOrModule isExcluded namespace path version get s)
  = fst (fetchPackageOrModule isExcluded' namespace path version get' s') /\
  (version = LatestVersion \/ semver_IsValid version = true ->
   fetchPackageOrModule (fun p => call (isExcluded p)) namespace path version
     (logged get) (s, log)
   = ((StatusNotFound, None), (s1, log))).
Proof.
  intros Hexcl Habsent Hget'. split.
  - unfold fetchPackageOrModule.
    destruct (negb (String.eqb version LatestVersion) &&
              negb (semver_IsValid version)); [reflexivity|].
    unfold bind, ret. rewrite Hexcl, Habsent.
    destruct (Hget' version s1') as (e1 & s2' & -> & ->). simpl.
    destruct (String.eqb version LatestVersion); [reflexivity|].
    now destruct (Hget' LatestVersion s2') as (e2 & s3' & -> & _).
  - intros Hvalid. unfold fetchPackageOrModule.
    rewrite version_check_passes by assumption.
    unfold bind, ret, call. simpl. now rewrite Hexcl.
Qed.

End FetchProperties.

(** ** Tab selection *)

(** C8: a tab name that the package registry does not have makes the
    package page handler select [doc] for a redistributable package and
    [subdirectories] otherwise; a tab name that the module registry does
    not have makes the module page handler select [readme], redistributable
    or not.  The settings are those registered under the selected name. *)
Theorem default_tab (tab : string) (isRedistributable : bool) :
  (packageTabLookup !! tab = None ->
   let '(tab', settings, _) := servePackagePage_tab tab isRedistributable in
   tab' = (if isRedistributable then "doc" else "subdirectories") /\
   packageTabLookup !! tab' = Some settings) /\
  (moduleTabLookup !! tab = None ->
   let '(tab', settings, _) := handleModuleDetails_tab tab isRedistributable in
   tab' = "readme" /\ moduleTabLookup !! tab' = Some settings).
Proof.
  split; intros Habsent.
  - unfold servePackagePage_tab. rewrite Habsent.
    destruct isRedistributable; split; reflexivity.
  - unfold handleModuleDetails_tab. rewrite Habsent.
    split; reflexivity.
Qed.

(** ** Routing of the package-details handler *)

Section HandlerProperties.
Context `{T : ThirdParty} {World Pkg : Type} `{D : !DataSource World Pkg}.

(** C9 (as amended): a URL path that is [/std] or starts with [/std@v]
    is handed to the module-details handler before any parsing and
    without a call of the data source; a path [/std@<version>] whose
    version does not start with the letter v, the latest sentinel literal
    among them, is not handed to it and goes through the general path
    parsing. *)
Theorem std_routes_to_module (urlPath : string) (w : World) :
  (urlPath = "/std" \/ HasPrefix urlPath "/std@v" = true ->
   handlePackageDetails urlPath w = (handleModuleDetails, w)) /\
  (forall version, urlPath = "/std@" ++ version ->
   HasPrefix version "v" = false ->
   fst (handlePackageDetails urlPath w) <> handleModuleDetails).
Proof.
  split.
  - intros H. unfold handlePackageDetails.
    destruct (String.eqb_spec urlPath "/") as [-> | _].
    + destruct H as [H | H]; discriminate H.
    + destruct H as [-> | ->]; [reflexivity | now rewrite orb_true_r].
  - intros version -> Hv. unfold handlePackageDetails.
    change (String.eqb ("/std@" ++ version) "/") with false.
    change (String.eqb ("/std@" ++ version) "/std") with false.
    change (HasPrefix ("/std@" ++ version) "/std@v") with (HasPrefix version "v").
    rewrite Hv. cbv iota. simpl orb. cbv iota.
    destruct (parseDetailsURLPath ("/std@" ++ version)) as [[[p m] v]| |];
      try discriminate.
    destruct (String.eqb p "C"); [discriminate|].
    destruct (fetchPackageOrModule _ _ _ _ _ _) as [[code epage] [w' pkg]].
    destruct (code =? StatusOK)%Z; [discriminate|].
    destruct (negb (code =? StatusNotFound)%Z); discriminate.
Qed.

End HandlerProperties.

(** ** License redistributability *)

Module LicenseFacts.
Import License LicenseSpec.













(** The rule itself fails the loop of the test, at the second row. *)
Lemma rule_fails_tests :
  testsPass (licensesAreRedistributable Sample.allow) = false.
Proof. vm_compute. reflexivity. Qed.

(** The rule with a record required in the root directory passes it. *)
Lemma rootRequired_passes_tests : testsPass Sample.rootRequired = true.
Proof. vm_compute. reflexivity. Qed.


(** C2: for every allow-list that has MIT and lacks AGPL-3.0 the
    evaluator answers false on no records, true on [{MIT, LICENSE}], false
    on [{MIT, LICENSE}, {AGPL-3.0, sub/LICENSE}] and true on
    [{MIT, LICENSE}, {MIT, sub/LICENSE}]. *)
Theorem redistributable_examples (allow : gset string) :
  "MIT" ∈ allow -> "AGPL-3.0" ∉ allow ->
  licensesAreRedistributable allow [] = false /\
  licensesAreRedistributable allow
    [ {| Type_ := "MIT"; FilePath := "LICENSE" |} ] = true /\
  licensesAreRedistributable allow
    [ {| Type_ := "MIT"; FilePath := "LICENSE" |};
      {| Type_ := "AGPL-3.0"; FilePath := "sub/LICENSE" |} ] = false /\
  licensesAreRedistributable allow
    [ {| Type_ := "MIT"; FilePath := "LICENSE" |};
      {| Type_ := "MIT"; FilePath := "sub/LICENSE" |} ] = true.
Proof.
  intros Hmit Hagpl.
  unfold licensesAreRedistributable, allCompliant, compliant.
  set (f := fun t : string => bool_decide (t ∈ allow)).
  assert (H1 : f "MIT" = true) by now apply bool_decide_eq_true.
  assert (H3 : f "AGPL-3.0" = false) by now apply bool_decide_eq_false.
  clearbody f.
  repeat split; vm_compute; now rewrite ?H1, ?H3.
Qed.

End LicenseFacts.

(** ** Concrete runs *)

Module Runs.
Import Sample License LicenseSpec.

(** The sample checker accepts only paths of the spec's syntax. *)
#[export] Instance checkSegments_syntax : CheckImportPathSyntax.
Proof.
  split; intros path H; cbn in H; unfold checkSegments in H;
    destruct (forallb _ _ && _) eqn:E; try discriminate;
    apply andb_true_iff in E as [Hseg Hat].
  - rewrite forallb_forall in Hseg. apply Forall_forall.
    intros seg Hin Hempty. apply list_elem_of_In, Hseg in Hin.
    subst seg. discriminate Hin.
  - now apply negb_true_iff in Hat.
Qed.



(** The four record lists under the sample allow-list. *)
Lemma redistributable_examples_witness :
  licensesAreRedistributable allow [] = false /\
  licensesAreRedistributable allow
    [ {| Type_ := "MIT"; FilePath := "LICENSE" |} ] = true /\
  licensesAreRedistributable allow
    [ {| Type_ := "MIT"; FilePath := "LICENSE" |};
      {| Type_ := "AGPL-3.0"; FilePath := "sub/LICENSE" |} ] = false /\
  licensesAreRedistributable allow
    [ {| Type_ := "MIT"; FilePath := "LICENSE" |};
      {| Type_ := "MIT"; FilePath := "sub/LICENSE" |} ] = true.
Proof.
  apply (LicenseFacts.redistributable_examples allow).
  - apply (bool_decide_unpack _). vm_compute. exact I.
  - apply (bool_decide_unpack _). vm_compute. exact I.
Defined.

(** C4, counterexample: the two URLs do not get module path [a/b] and
    the unknown sentinel; both get the standard-library module path. *)
Lemma parse_versioned_examples_counterexample :
  ~ (parseDetailsURLPath "/a/b@v1.2.3/c" = Ok ("a/b/c", "a/b", "v1.2.3") /\
     parseDetailsURLPath "/a/b@v1.2.3"
     = Ok ("a/b", unknownModulePath, "v1.2.3")).
Proof. intros [H _]. vm_compute in H. discriminate H. Qed.

(** The two URLs under the sample checker. *)
Lemma parse_versioned_examples_witness :
  parseDetailsURLPath "/a/b@v1.2.3/c" = Ok ("a/b/c", stdlib_ModulePath, "v1.2.3") /\
  parseDetailsURLPath "/a/b@v1.2.3" = Ok ("a/b", stdlib_ModulePath, "v1.2.3") /\
  splitDetailsURLPath "/a/b@v1.2.3/c" = Some ("a/b/c", "a/b", "v1.2.3") /\
  splitDetailsURLPath "/a/b@v1.2.3" = Some ("a/b", unknownModulePath, "v1.2.3").
Proof.
  apply (parse_versioned_examples (T := thirdParty)); vm_compute; reflexivity.
Defined.

(** C5, counterexample: [/fmt] has no at sign and is well-formed, and its
    module path is the standard-library module path, not the unknown
    sentinel. *)
Lemma parse_without_version_counterexample :
  ~ (forall urlPath,
       Contains urlPath "@" = false ->
       CheckImportPath (trimSlashes urlPath) = None ->
       exists pkgPath,
         parseDetailsURLPath urlPath
         = Ok (pkgPath, unknownModulePath, LatestVersion)).
Proof.
  intros Hall.
  destruct (Hall "/fmt") as [pkgPath H]; [reflexivity | reflexivity |].
  vm_compute in H. discriminate H.
Qed.

(** A hosted path and a standard-library path, both without version. *)
Lemma parse_without_version_witness :
  parseDetailsURLPath "/github.com/x/y/"
  = Ok ("github.com/x/y", unknownModulePath, LatestVersion) /\
  parseDetailsURLPath "/fmt" = Ok ("fmt", stdlib_ModulePath, LatestVersion).
Proof.
  split.
  - apply (parse_without_version (T := thirdParty) "/github.com/x/y/");
      vm_compute; reflexivity.
  - apply (parse_without_version (T := thirdParty) "/fmt");
      vm_compute; reflexivity.
Defined.

(** A path with a dot in its first segment keeps the module path of the
    split; [/net/http] gets the standard-library module path. *)
Lemma parse_stdlib_override_witness :
  (parseDetailsURLPath "/github.com/x/y@v1.0.0/z"
   = Ok ("github.com/x/y/z", "github.com/x/y", "v1.0.0") /\
   splitDetailsURLPath "/github.com/x/y@v1.0.0/z"
   = Some ("github.com/x/y/z", "github.com/x/y", "v1.0.0") /\
   "github.com/x/y" <> stdlib_ModulePath) /\
  (parseDetailsURLPath "/net/http" = Ok ("net/http", "std", "latest") /\
   "std" = stdlib_ModulePath).
Proof.
  assert (H1 : parseDetailsURLPath "/github.com/x/y@v1.0.0/z"
               = Ok ("github.com/x/y/z", "github.com/x/y", "v1.0.0"))
    by (vm_compute; reflexivity).
  assert (H2 : parseDetailsURLPath "/net/http" = Ok ("net/http", "std", "latest"))
    by (vm_compute; reflexivity).
  split; (split; [assumption|]).
  - apply (parse_stdlib_override (T := thirdParty) _ _ _ _ H1).
    vm_compute. reflexivity.
  - apply (parse_stdlib_override (T := thirdParty) _ _ _ _ H2).
    vm_compute. reflexivity.
Defined.

(** A package below its module at a specific version. *)
Lemma parse_constructPackageURL_witness :
  constructPackageURL "github.com/x/y/z" "github.com/x/y" "v1.0.0"
  = "/github.com/x/y@v1.0.0/z" /\
  exists modulePath,
    parseDetailsURLPath
      (constructPackageURL "github.com/x/y/z" "github.com/x/y" "v1.0.0")
    = Ok ("github.com/x/y/z", modulePath, "v1.0.0").
Proof.
  split; [vm_compute; reflexivity|].
  apply (parse_constructPackageURL (T := thirdParty)
           "github.com/x/y/z" "github.com/x/y" "v1.0.0").
  - vm_compute. reflexivity.
  - right. right. split; [vm_compute; reflexivity | discriminate].
  - right. split; vm_compute; reflexivity.
Defined.

(** [fmt] is there at the latest version only: asking for [v1.13.0] ends
    in SeeOther with a page. *)
Lemma fetch_retry_latest_witness :
  exists epage s3,
    fetchPackageOrModule IsExcluded "pkg" "fmt" "v1.13.0" (getPackage "fmt") w0
    = ((StatusSeeOther, Some epage), s3).
Proof.
  destruct (fetch_retry_latest (T := thirdParty) IsExcluded "pkg" "fmt"
              "v1.13.0" (getPackage "fmt") w0 w0
              (logCall "get fmt@v1.13.0" w0) NotFound)
    as [Hfound _];
    [discriminate | reflexivity | reflexivity | reflexivity | reflexivity |].
  destruct (Hfound (logCall "get fmt@latest" (logCall "get fmt@v1.13.0" w0)))
    as [epage [He _]]; [reflexivity|].
  exists epage. eexists. exact He.
Defined.

(** C7, counterexample: the path [bad.com/x] is excluded, and with the
    version [1.13], which is not a valid semantic version, the status is
    not NotFound. *)
Lemma fetch_excluded_counterexample :
  ~ (forall version,
       fst (IsExcluded "bad.com/x" w0) = (true, None) ->
       fst (fetchPackageOrModule IsExcluded "pkg" "bad.com/x" version
              (getPackage "bad.com/x") w0)
       = (StatusNotFound, None)).
Proof.
  intros Hall. specialize (Hall "1.13" eq_refl).
  vm_compute in Hall. discriminate Hall.
Qed.

(** The excluded path at a valid version: no lookup is logged, and the
    outcome is that of an empty data source. *)
Lemma fetch_excluded_witness :
  fetchPackageOrModule (fun p => call (IsExcluded p)) "pkg" "bad.com/x"
    "v1.13.0" (logged (getPackage "bad.com/x")) (w0, [])
  = ((StatusNotFound, None), (w0, [])) /\
  fst (fetchPackageOrModule IsExcluded "pkg" "bad.com/x" "v1.13.0"
         (getPackage "bad.com/x") w0)
  = fst (fetchPackageOrModule IsExcluded "pkg" "bad.com/x" "v1.13.0"
           (fun _ w => (Some NotFound, w))
           {| excludedPaths := []; packages := []; calls := [] |}).
Proof.
  destruct (fetch_excluded (T := thirdParty) IsExcluded IsExcluded
              "pkg" "bad.com/x" "v1.13.0"
              (getPackage "bad.com/x") (fun _ w => (Some NotFound, w))
              w0 w0 {| excludedPaths := []; packages := []; calls := [] |}
              {| excludedPaths := []; packages := []; calls := [] |} [])
    as [Hsame Hnotfound].
  - reflexivity.
  - reflexivity.
  - intros ver st. exists NotFound, st. split; reflexivity.
  - split; [apply Hnotfound; right; reflexivity | exact Hsame].
Defined.

(** An unregistered tab name on a package page and on a module page. *)
Lemma default_tab_witness :
  (let '(tab', settings, _) := servePackagePage_tab "bogus" true in
   tab' = "doc" /\ packageTabLookup !! tab' = Some settings) /\
  (let '(tab', settings, _) := servePackagePage_tab "bogus" false in
   tab' = "subdirectories" /\ packageTabLookup !! tab' = Some settings) /\
  (let '(tab', settings, _) := handleModuleDetails_tab "bogus" false in
   tab' = "readme" /\ moduleTabLookup !! tab' = Some settings).
Proof.
  assert (Hp : packageTabLookup !! "bogus" = None) by (vm_compute; reflexivity).
  assert (Hm : moduleTabLookup !! "bogus" = None) by (vm_compute; reflexivity).
  split; [exact (proj1 (default_tab "bogus" true) Hp)|].
  split; [exact (proj1 (default_tab "bogus" false) Hp)|].
  exact (proj2 (default_tab "bogus" false) Hm).
Defined.

(** C9, counterexample: [/std@latest] is not handed to the module-details
    handler; it is parsed as a package path and ends in the directory
    page. *)
Lemma std_routes_to_module_counterexample :
  ~ (forall version w,
       fst (handlePackageDetails ("/std@" ++ version) w)
       = handleModuleDetails).
Proof.
  intros Hall. specialize (Hall "latest" w0).
  vm_compute in Hall. discriminate Hall.
Qed.

(** [/std@v1.13.0] goes to the module handler, [/std@latest] does not. *)
Lemma std_routes_to_module_witness :
  handlePackageDetails "/std@v1.13.0" w0 = (handleModuleDetails, w0) /\
  fst (handlePackageDetails "/std@latest" w0) <> handleModuleDetails.
Proof.
  destruct (std_routes_to_module (T := thirdParty) "/std@v1.13.0" w0)
    as [Hroute _].
  destruct (std_routes_to_module (T := thirdParty) "/std@latest" w0)
    as [_ Hother].
  split.
  - apply Hroute. right. reflexivity.
  - apply (Hother "latest"); reflexivity.
Defined.

End Runs.

(** * Further properties of details.go *)

(** ** More facts about the string library *)

Module MoreStringFacts.
Import GoStringsFacts SplitFacts.

Lemma cut_none_count (s : string) (c : ascii) :
  cut s c = None -> Count s c = 0%nat.
Proof.
  induction s as [|a s IH]; simpl; [reflexivity|].
  destruct (Ascii.eqb a c); [discriminate|].
  destruct (cut s c) as [[? ?]|]; [discriminate|]. intros _. now apply IH.
Qed.

Lemma cut_app_some (s x a b : string) (c : ascii) :
  cut s c = Some (a, b) -> cut (s ++ x) c = Some (a, b ++ x).
Proof.
  intros H. apply cut_some in H as [-> Ha].
  rewrite app_assoc. simpl. now apply cut_app.
Qed.

(** The first piece of a split holds no separator. *)
Lemma Split_hd_no_sep (s h : string) (t : list string) (c : ascii) :
  Split s c = h :: t -> Count h c = 0%nat.
Proof.
  intros H. pose proof (Split_hd s c) as Hhd. rewrite H in Hhd. simpl in Hhd.
  destruct (cut s c) as [[a b]|] eqn:E.
  - subst h. now apply cut_some in E as [_ Ha].
  - subst h. now apply cut_none_count.
Qed.

Lemma HasPrefix_slash_empty_segment (p : string) :
  HasPrefix p "/" = true -> In "" (Split p "/"%char).
Proof.
  intros H. apply HasPrefix_inv in H.
  set (r := drop_bytes (len "/") p) in H. clearbody r. subst p.
  change ("/" ++ r) with ("" ++ String "/" r).
  rewrite Split_first_sep by reflexivity. now left.
Qed.

End MoreStringFacts.

(** ** More on URL parsing and construction *)

Section MoreParseProperties.
Context `{T : ThirdParty}.
Import GoStringsFacts SplitFacts MoreStringFacts.

(** Two URL paths with the same split parse to the same values. *)
Lemma parse_ok_of_same_split (u1 u2 : string)
    (x : string * string * string) :
  splitDetailsURLPath u1 = splitDetailsURLPath u2 ->
  parseDetailsURLPath u1 = Ok x -> parseDetailsURLPath u2 = Ok x.
Proof.
  unfold parseDetailsURLPath. intros <-.
  destruct (splitDetailsURLPath u1) as [[[p m] v]|]; [|discriminate].
  now destruct (CheckImportPath p).
Qed.

(** X1: a suffix after [@latest] is dropped without notice: for a base
    without an at sign, [<base>@latest/<rest>] parses to exactly what
    [<base>] parses to, whatever [rest] is. *)
Theorem latest_suffix_dropped (base rest : string)
    (x : string * string * string) :
  Contains base "@" = false ->
  (splitDetailsURLPath (base ++ "@" ++ LatestVersion ++ "/" ++ rest)
   = Some (trimSlashes base, unknownModulePath, LatestVersion)) /\
  (parseDetailsURLPath (base ++ "@" ++ LatestVersion ++ "/" ++ rest) = Ok x
   <-> parseDetailsURLPath base = Ok x).
Proof.
  intros Hat. apply Contains_byte in Hat.
  assert (Hsplit : splitDetailsURLPath (base ++ "@" ++ LatestVersion ++ "/" ++ rest)
                   = Some (trimSlashes base, unknownModulePath, LatestVersion)).
  { unfold splitDetailsURLPath.
    change (base ++ "@" ++ LatestVersion ++ "/" ++ rest)
      with (base ++ String "@" (LatestVersion ++ String "/" rest)).
    rewrite SplitN_first_sep by assumption.
    rewrite Split_first_sep by reflexivity.
    now rewrite String.eqb_refl, orb_true_r. }
  split; [exact Hsplit|].
  pose proof (splitDetailsURLPath_no_version base Hat) as Hbase.
  split; apply parse_ok_of_same_split; congruence.
Qed.

Lemma splitDetailsURLPath_known (urlPath pkgPath modulePath version : string) :
  splitDetailsURLPath urlPath = Some (pkgPath, modulePath, version) ->
  Count version "/"%char = 0%nat /\
  (modulePath = unknownModulePath \/
   version <> LatestVersion /\
   exists suffix, suffix <> "" /\ pkgPath = modulePath ++ "/" ++ suffix).
Proof.
  unfold splitDetailsURLPath.
  destruct (SplitN urlPath "@"%char 2) as [|parts0 [|parts1 rest]];
    [discriminate | intros [= <- <- <-]; split; [reflexivity | now left] |].
  destruct (Split parts1 "/"%char) as [|ver tl] eqn:Hparts; [discriminate|].
  pose proof (Split_hd_no_sep _ _ _ _ Hparts) as Hver.
  destruct (String.eqb_spec (Join tl "/") "") as [Hs | Hs];
    simpl; [intros [= <- <- <-]; split; [assumption | now left]|].
  destruct (String.eqb_spec ver LatestVersion) as [Hl | Hl];
    intros [= <- <- <-]; (split; [assumption|]); [now left | right].
  split; [assumption|]. now exists (Join tl "/").
Qed.

(** X2: what a successful parse returns.  The version holds no slash, the
    package path passed the checker, and the module path is the
    standard-library module path, the unknown sentinel, or a path of which
    the package path is a proper extension by a slash and a non-empty
    suffix; the last happens only with a version other than the latest
    sentinel and a package path whose first segment has a dot. *)
Theorem parse_result_shape (urlPath pkgPath modulePath version : string) :
  parseDetailsURLPath urlPath = Ok (pkgPath, modulePath, version) ->
  Contains version "/" = false /\
  CheckImportPath pkgPath = None /\
  (modulePath = stdlib_ModulePath \/
   modulePath = unknownModulePath \/
   (version <> LatestVersion /\
    Contains (firstSegment pkgPath) "." = true /\
    exists suffix, suffix <> "" /\ pkgPath = modulePath ++ "/" ++ suffix)).
Proof.
  intros Hparse.
  destruct (parse_ok_inv _ _ _ _ Hparse) as (m0 & Hsplit & Hcheck & ->).
  destruct (splitDetailsURLPath_known _ _ _ _ Hsplit) as [Hver Hmod].
  split; [now apply Contains_byte|]. split; [assumption|].
  rewrite inStdLib_firstSegment.
  destruct (Contains (firstSegment pkgPath) "."); simpl; [|now left].
  right. destruct Hmod as [-> | [Hl Hsuffix]]; [now left | right; auto].
Qed.

(** X3: the round trip keeps the module path when it can.  For a
    well-formed package path [p] whose first segment has a dot and a
    version [v] other than the latest sentinel and without a slash: if
    [m/] is a proper prefix of [p] and [m] is not the standard-library
    module path, the URL of [constructPackageURL] parses back to
    [(p, m, v)]; if [m] is [p] itself, the module path comes back as the
    unknown sentinel. *)
Theorem parse_constructPackageURL_module `{!CheckImportPathSyntax}
    (p m v : string) :
  CheckImportPath p = None ->
  Contains (firstSegment p) "." = true ->
  v <> LatestVersion -> Contains v "/" = false ->
  (HasPrefix p (m ++ "/") = true -> m ++ "/" <> p -> m <> stdlib_ModulePath ->
   parseDetailsURLPath (constructPackageURL p m v) = Ok (p, m, v)) /\
  (m = p ->
   parseDetailsURLPath (constructPackageURL p m v)
   = Ok (p, unknownModulePath, v)).
Proof.
  intros Hp Hdot Hlatest Hslash.
  pose proof (accepted_segments p Hp) as Hseg.
  pose proof (accepted_no_at p Hp) as Hat. apply Contains_byte in Hat.
  apply Contains_byte in Hslash.
  assert (Hstd : inStdLib p = false)
    by (rewrite inStdLib_firstSegment, Hdot; reflexivity).
  unfold constructPackageURL.
  apply String.eqb_neq in Hlatest as Hl. rewrite Hl.
  split.
  - intros Hpre Hproper Hm.
    assert (Hpm : String.eqb p m = false).
    { apply String.eqb_neq. intros ->.
      apply HasPrefix_inv in Hpre.
      apply (f_equal len) in Hpre. rewrite !len_app in Hpre.
      unfold len in Hpre. simpl in Hpre. lia. }
    apply String.eqb_neq in Hm as Hm'. rewrite Hpm, Hm'. simpl orb. cbv iota.
    apply HasPrefix_inv in Hpre.
    set (s := drop_bytes (len (m ++ "/")) p) in *.
    assert (Hs : TrimPrefix p (m ++ "/") = s)
      by (rewrite Hpre at 1; apply TrimPrefix_app).
    rewrite Hs. clearbody s. rewrite app_assoc in Hpre.
    assert (Hne : s <> "").
    { intros E. apply Hproper. rewrite E in Hpre. symmetry. exact Hpre. }
    assert (Hm_at : Count m "@"%char = 0%nat).
    { rewrite Hpre, Count_app in Hat. lia. }
    assert (Hm_end : HasSuffix m "/" = false).
    { apply (segments_prefix_no_trailing_slash m s). now rewrite <- Hpre. }
    assert (Hsplit : splitDetailsURLPath ("/" ++ m ++ "@" ++ v ++ "/" ++ s)
                     = Some (p, m, v)).
    { change ("/" ++ m ++ "@" ++ v ++ "/" ++ s)
        with (String "/" m ++ String "@" (v ++ String "/" s)).
      rewrite splitDetailsURLPath_version_suffix by (simpl; assumption).
      unfold trimSlashes.
      change (TrimPrefix (String "/" m) "/") with m.
      rewrite TrimSuffix_keeps by assumption. now rewrite Hpre. }
    rewrite (parse_of_split _ _ _ _ Hsplit Hp). now rewrite Hstd.
  - intros ->. rewrite String.eqb_refl. simpl orb. cbv iota.
    assert (Hsplit : splitDetailsURLPath ("/" ++ p ++ "@" ++ v)
                     = Some (p, unknownModulePath, v)).
    { change ("/" ++ p ++ "@" ++ v) with (String "/" p ++ String "@" v).
      rewrite splitDetailsURLPath_version_only by (simpl; assumption).
      unfold trimSlashes.
      change (TrimPrefix (String "/" p) "/") with p.
      now rewrite TrimSuffix_keeps by now apply segments_no_trailing_slash. }
    rewrite (parse_of_split _ _ _ _ Hsplit Hp). now rewrite Hstd.
Qed.

(** X4: [inStdLib] classifies a path and everything below it alike:
    appending a slash and more to a path does not change the answer. *)
Theorem inStdLib_below (path rest : string) :
  inStdLib (path ++ "/" ++ rest) = inStdLib path.
Proof.
  rewrite !inStdLib_firstSegment. do 2 f_equal.
  unfold firstSegment. rewrite !Split_hd.
  destruct (cut path "/"%char) as [[a b]|] eqn:E.
  - now rewrite (cut_app_some _ _ _ _ _ E).
  - change (path ++ "/" ++ rest) with (path ++ String "/" rest).
    now rewrite cut_app by now apply cut_none_count.
Qed.

(** X5: round trip of module URLs.  For a well-formed module path [m] and
    a version [v] that is the latest sentinel or holds no slash, the URL of
    [constructModuleURL], with the prefix [/mod] removed as
    [handleModuleDetails] removes it, parses back to path [m] and version
    [v]. *)
Theorem parse_constructModuleURL `{!CheckImportPathSyntax} (m v : string) :
  CheckImportPath m = None ->
  v = LatestVersion \/ Contains v "/" = false ->
  exists modulePath,
    parseDetailsURLPath (TrimPrefix (constructModuleURL m v) "/mod")
    = Ok (m, modulePath, v).
Proof.
  intros Hm Hv.
  pose proof (accepted_segments m Hm) as Hseg.
  pose proof (accepted_no_at m Hm) as Hat. apply Contains_byte in Hat.
  pose proof (segments_no_trailing_slash m Hseg) as Hend.
  assert (Hurl : TrimPrefix (constructModuleURL m v) "/mod"
                 = if String.eqb v LatestVersion then String "/" m
                   else String "/" m ++ String "@" v).
  { unfold constructModuleURL.
    destruct (String.eqb_spec m stdlib_ModulePath) as [-> | Hstd];
      destruct (String.eqb v LatestVersion); reflexivity. }
  rewrite Hurl.
  enough (exists m0, splitDetailsURLPath
            (if String.eqb v LatestVersion then String "/" m
             else String "/" m ++ String "@" v) = Some (m, m0, v)) as [m0 Hs]
    by (eexists; exact (parse_of_split _ _ _ _ Hs Hm)).
  exists unknownModulePath.
  destruct (String.eqb_spec v LatestVersion) as [-> | Hl].
  - rewrite splitDetailsURLPath_no_version by (simpl; exact Hat).
    unfold trimSlashes. change (TrimPrefix (String "/" m) "/") with m.
    now rewrite TrimSuffix_keeps.
  - destruct Hv as [-> | Hslash]; [congruence|]. apply Contains_byte in Hslash.
    rewrite splitDetailsURLPath_version_only by (simpl; assumption).
    unfold trimSlashes. change (TrimPrefix (String "/" m) "/") with m.
    now rewrite TrimSuffix_keeps.
Qed.

End MoreParseProperties.

(** ** More on the fetch and on the package handler *)

Section MoreFetchProperties.
Context `{T : ThirdParty}.

(** The five status codes are distinct numbers. *)
Ltac status_neq := unfold StatusOK, StatusSeeOther, StatusBadRequest,
  StatusNotFound, StatusInternalServerError, StatusMovedPermanently in *;
  try lia; try discriminate; try congruence.

(** X6: the fetch answers with one of five status codes, and it hands
    out an error page exactly with BadRequest and SeeOther. *)
Theorem fetch_status_and_page {St : Type}
    (isExcluded : string -> M St (bool * option error))
    (namespace path version : string) (get : string -> M St (option error))
    (s : St) :
  let '(code, epage) :=
    fst (fetchPackageOrModule isExcluded namespace path version get s) in
  (code = StatusOK \/ code = StatusSeeOther \/ code = StatusBadRequest \/
   code = StatusNotFound \/ code = StatusInternalServerError) /\
  (is_Some epage <-> code = StatusBadRequest \/ code = StatusSeeOther).
Proof.
  unfold fetchPackageOrModule, bind, ret.
  destruct (negb (String.eqb version LatestVersion) &&
            negb (semver_IsValid version)).
  { simpl. split; [tauto|]. split; eauto. }
  destruct (isExcluded path s) as [[excluded [err|]] s1]; simpl.
  { split; [tauto|]. split; [intros []; discriminate | intros []; status_neq]. }
  destruct excluded; simpl.
  { split; [tauto|]. split; [intros []; discriminate | intros []; status_neq]. }
  destruct (get version s1) as [[e|] s2]; simpl.
  2:{ split; [tauto|]. split; [intros []; discriminate | intros []; status_neq]. }
  destruct (Is_NotFound e); simpl.
  2:{ split; [tauto|]. split; [intros []; discriminate | intros []; status_neq]. }
  destruct (String.eqb version LatestVersion); simpl.
  { split; [tauto|]. split; [intros []; discriminate | intros []; status_neq]. }
  destruct (get LatestVersion s2) as [[e'|] s3]; simpl.
  { split; [tauto|]. split; [intros []; discriminate | intros []; status_neq]. }
  destruct (String.eqb namespace "mod"); simpl;
    (split; [tauto|]); split; eauto.
Qed.

(** X7: the lookups of one fetch.  The versions handed to the lookup
    function are none, the requested version alone, or the requested
    version and then the latest sentinel, the last only for a version that
    is not the sentinel: there is at most one retry.  OK comes after exactly
    one lookup, SeeOther after exactly two, BadRequest after none, and an
    internal error is never followed by a retry. *)
Theorem fetch_lookups {St : Type}
    (isExcluded : string -> M St (bool * option error))
    (namespace path version : string) (get : string -> M St (option error))
    (s : St) (log : list string) :
  let '((code, _), (_, log')) :=
    fetchPackageOrModule (fun p => call (isExcluded p)) namespace path version
      (logged get) (s, log) in
  exists l,
    log' = (log ++ l)%list /\
    (l = [] \/ l = [version] \/
     (l = [version; LatestVersion] /\ version <> LatestVersion)) /\
    (code = StatusOK -> l = [version]) /\
    (code = StatusSeeOther -> l = [version; LatestVersion]) /\
    (code = StatusBadRequest -> l = []) /\
    (code = StatusInternalServerError -> l = [] \/ l = [version]).
Proof.
  unfold fetchPackageOrModule, bind, ret, call, logged.
  destruct (negb (String.eqb version LatestVersion) &&
            negb (semver_IsValid version)).
  { simpl. exists []. rewrite List.app_nil_r.
    repeat split; auto; intros; status_neq. }
  simpl. destruct (isExcluded path s) as [[excluded [err|]] s1]; simpl.
  { exists []. rewrite List.app_nil_r. repeat split; auto; intros; status_neq. }
  destruct excluded; simpl.
  { exists []. rewrite List.app_nil_r. repeat split; auto; intros; status_neq. }
  destruct (get version s1) as [[e|] s2]; simpl.
  2:{ exists [version]. repeat split; auto; intros; status_neq. }
  destruct (Is_NotFound e); simpl.
  2:{ exists [version]. repeat split; auto; intros; status_neq. }
  destruct (String.eqb_spec version LatestVersion) as [Hl | Hl]; simpl.
  { exists [version]. repeat split; auto; intros; status_neq. }
  destruct (get LatestVersion s2) as [[e'|] s3]; simpl.
  { exists [version; LatestVersion]. rewrite <- List.app_assoc.
    repeat split; auto; intros; status_neq. }
  destruct (String.eqb namespace "mod"); simpl;
    exists [version; LatestVersion]; rewrite <- List.app_assoc;
    repeat split; auto; intros; status_neq.
Qed.

(** X8: a version that is neither the latest sentinel nor a valid
    semantic version is refused before the data source is touched: the
    state is unchanged whatever the exclusion check and the lookup would
    do, the status is BadRequest, the page quotes the version, and only in
    the package namespace does it carry the search suggestion. *)
Theorem fetch_invalid_version {St : Type}
    (isExcluded : string -> M St (bool * option error))
    (namespace path version : string) (get : string -> M St (option error))
    (s : St) :
  version <> LatestVersion ->
  semver_IsValid version = false ->
  fetchPackageOrModule isExcluded namespace path version get s
  = ((StatusBadRequest,
      Some {| Message := Quote version ++ " is not a valid semantic version.";
              SecondaryMessage :=
                if String.eqb namespace "pkg" then suggestedSearch path
                else "" |}), s).
Proof.
  intros Hl Hv. apply String.eqb_neq in Hl.
  unfold fetchPackageOrModule. rewrite Hl, Hv. simpl.
  now destruct (String.eqb namespace "pkg").
Qed.

End MoreFetchProperties.

Section MoreHandlerProperties.
Context `{T : ThirdParty} {World Pkg : Type} `{D : !DataSource World Pkg}.



(** X10: an excluded package is answered like a plain directory.  When
    the URL path parses to a package path other than [C], the version is
    the latest sentinel or valid, and the data source excludes the path,
    the handler calls [serveDirectoryPage] with the parsed path and
    version, and the state is the one the exclusion check left: no package
    lookup took place. *)
Theorem excluded_package_directory_page
    (urlPath pkgPath modulePath version : string) (w w1 : World) :
  String.eqb urlPath "/" = false ->
  String.eqb urlPath "/std" || HasPrefix urlPath "/std@v" = false ->
  parseDetailsURLPath urlPath = Ok (pkgPath, modulePath, version) ->
  pkgPath <> "C" ->
  version = LatestVersion \/ semver_IsValid version = true ->
  IsExcluded pkgPath w = ((true, None), w1) ->
  handlePackageDetails urlPath w = (serveDirectoryPage pkgPath version, w1).
Proof.
  intros Hroot Hstd Hparse HC Hvalid Hexcl.
  unfold handlePackageDetails. rewrite Hroot, Hstd, Hparse.
  apply String.eqb_neq in HC. rewrite HC.
  unfold fetchPackageOrModule.
  rewrite version_check_passes by assumption.
  unfold bind, ret, call. simpl. rewrite Hexcl. reflexivity.
Qed.

End MoreHandlerProperties.

(** X11: which lookup the package handler uses.  Take two data sources
    that agree on [IsExcluded] and a URL path that parses.  When the
    module path is the unknown sentinel or the standard-library module
    path, the handler never calls [GetPackageInModuleVersion]: if the two
    agree on [GetPackage], response and final state are the same.  When
    the module path is known, it never calls [GetPackage]: if the two agree
    on [GetPackageInModuleVersion], response and final state are the
    same. *)
Theorem package_lookup_method `{T : ThirdParty} {World Pkg : Type}
    (D1 D2 : DataSource World Pkg)
    (urlPath pkgPath modulePath version : string) (w : World) :
  @IsExcluded _ _ D1 = @IsExcluded _ _ D2 ->
  parseDetailsURLPath urlPath = Ok (pkgPath, modulePath, version) ->
  (modulePath = unknownModulePath \/ modulePath = stdlib_ModulePath ->
   @GetPackage _ _ D1 = @GetPackage _ _ D2 ->
   @handlePackageDetails T World Pkg D1 urlPath w
   = @handlePackageDetails T World Pkg D2 urlPath w) /\
  (modulePath <> unknownModulePath -> modulePath <> stdlib_ModulePath ->
   @GetPackageInModuleVersion _ _ D1 = @GetPackageInModuleVersion _ _ D2 ->
   @handlePackageDetails T World Pkg D1 urlPath w
   = @handlePackageDetails T World Pkg D2 urlPath w).
Proof.
  intros Hexcl Hparse.
  unfold handlePackageDetails.
  destruct (String.eqb urlPath "/"); [now split|].
  destruct (String.eqb urlPath "/std" || HasPrefix urlPath "/std@v");
    [now split|].
  rewrite Hparse.
  destruct (String.eqb pkgPath "C"); [now split|].
  split.
  - intros Hm Hget.
    assert (Hcond : String.eqb modulePath unknownModulePath ||
                    String.eqb modulePath stdlib_ModulePath = true)
      by (destruct Hm as [-> | ->]; reflexivity).
    rewrite Hcond. cbv iota. now rewrite Hexcl, Hget.
  - intros Hu Hs Hget.
    apply String.eqb_neq in Hu, Hs. rewrite Hu, Hs. simpl orb. cbv iota.
    now rewrite Hexcl, Hget.
Qed.

(** ** More on the tab registries *)

Module TabFacts.

Lemma initTabLookup_snoc (settings : list TabSettings) (d : TabSettings) :
  initTabLookup (settings ++ [d]) = <[Name d := d]> (initTabLookup settings).
Proof. unfold initTabLookup. now rewrite foldl_snoc. Qed.

(** What the loop of [init] leaves under a key: an entry of the list with
    that name. *)
Lemma initTabLookup_Some (settings : list TabSettings) (k : string)
    (d : TabSettings) :
  initTabLookup settings !! k = Some d -> d ∈ settings /\ Name d = k.
Proof.
  induction settings as [|x settings IH] using rev_ind;
    [intros H; discriminate H|].
  rewrite initTabLookup_snoc.
  destruct (decide (Name x = k)) as [<- | Hne].
  - rewrite lookup_insert_eq. intros [= <-]. split; [|reflexivity].
    apply elem_of_app. right. left.
  - rewrite lookup_insert_ne by assumption. intros H.
    destruct (IH H) as [Hin Hname]. split; [|assumption].
    apply elem_of_app. now left.
Qed.

Lemma initTabLookup_None (settings : list TabSettings) (k : string) :
  initTabLookup settings !! k = None <-> k ∉ Name <$> settings.
Proof.
  induction settings as [|x settings IH] using rev_ind.
  - split; [intros _ H; now apply not_elem_of_nil in H | reflexivity].
  - rewrite initTabLookup_snoc, fmap_app, elem_of_app.
    destruct (decide (Name x = k)) as [<- | Hne].
    + rewrite lookup_insert_eq. split; [discriminate|].
      intros H. exfalso. apply H. right. left.
    + rewrite lookup_insert_ne by assumption. rewrite IH. split.
      * intros H [Hin | Hin]; [tauto|].
        apply list_elem_of_singleton in Hin. congruence.
      * tauto.
Qed.

Lemma initTabLookup_NoDup (settings : list TabSettings) (d : TabSettings) :
  NoDup (Name <$> settings) -> d ∈ settings ->
  initTabLookup settings !! Name d = Some d.
Proof.
  induction settings as [|x settings IH] using rev_ind;
    [intros _ H; now apply not_elem_of_nil in H|].
  rewrite fmap_app, initTabLookup_snoc. intros Hnd Hin.
  apply NoDup_app in Hnd as (Hnd & Hdisj & _).
  apply elem_of_app in Hin as [Hin | Hin].
  - rewrite lookup_insert_ne; [now apply IH|].
    intros Heq. apply (Hdisj (Name d)).
    + now apply list_elem_of_fmap_2.
    + rewrite <- Heq. left.
  - apply list_elem_of_singleton in Hin. subst x. apply lookup_insert_eq.
Qed.

Lemma packageTabSettings_NoDup : NoDup (Name <$> packageTabSettings).
Proof. apply (bool_decide_unpack _). vm_compute. exact I. Qed.

Lemma moduleTabSettings_NoDup : NoDup (Name <$> moduleTabSettings).
Proof. apply (bool_decide_unpack _). vm_compute. exact I. Qed.

(** X12: the registries that [init] builds hold exactly the listed
    settings, each under its own name: a lookup finds [settings] under
    [tab] exactly when [settings] is in the list and [tab] is its name. *)
Theorem tab_registries (tab : string) (settings : TabSettings) :
  (packageTabLookup !! tab = Some settings <->
   settings ∈ packageTabSettings /\ Name settings = tab) /\
  (moduleTabLookup !! tab = Some settings <->
   settings ∈ moduleTabSettings /\ Name settings = tab).
Proof.
  split; (split; [apply initTabLookup_Some|]); intros [Hin <-].
  - now apply initTabLookup_NoDup; [apply packageTabSettings_NoDup|].
  - now apply initTabLookup_NoDup; [apply moduleTabSettings_NoDup|].
Qed.

Lemma packageTab_absent (tab : string) :
  packageTabLookup !! tab = None <->
  tab ∉ ["doc"; "readme"; "subdirectories"; "versions"; "imports";
         "importedby"; "licenses"].
Proof. apply (initTabLookup_None packageTabSettings). Qed.

Lemma moduleTab_absent (tab : string) :
  moduleTabLookup !! tab = None <->
  tab ∉ ["readme"; "packages"; "versions"; "licenses"].
Proof. apply (initTabLookup_None moduleTabSettings). Qed.

Ltac tab_cases tab :=
  repeat match goal with
  | |- context [String.eqb tab ?k] =>
      destruct (String.eqb_spec tab k) as [-> | ?]
  end.

Lemma fetchDetailsForPackage_registered `{T : ThirdParty} (tab : string) :
  (exists e, fetchDetailsForPackage tab = inr e) <->
  packageTabLookup !! tab = None.
Proof.
  rewrite packageTab_absent. unfold fetchDetailsForPackage.
  tab_cases tab;
    try (split; [intros [e He]; discriminate He
                | intros Hnot; exfalso; apply Hnot; solve [repeat constructor]]).
  split; [|eauto]. intros _.
  rewrite !not_elem_of_cons. repeat split; auto using not_elem_of_nil.
Qed.

Lemma fetchDetailsForModule_registered `{T : ThirdParty} (tab : string) :
  (exists e, fetchDetailsForModule tab = inr e) <->
  moduleTabLookup !! tab = None.
Proof.
  rewrite moduleTab_absent. unfold fetchDetailsForModule.
  tab_cases tab;
    try (split; [intros [e He]; discriminate He
                | intros Hnot; exfalso; apply Hnot; solve [repeat constructor]]).
  split; [|eauto]. intros _.
  rewrite !not_elem_of_cons. repeat split; auto using not_elem_of_nil.
Qed.

(** X13: the switches and the registries list the same tabs.
    [fetchDetailsForPackage] answers with its unknown-tab error exactly for
    the names that the package registry does not have, and
    [fetchDetailsForModule] exactly for the names that the module registry
    does not have. *)
Theorem fetchers_match_registries `{T : ThirdParty} (tab : string) :
  (fetchDetailsForPackage tab = inr (unknownTab tab) <->
   packageTabLookup !! tab = None) /\
  (fetchDetailsForModule tab = inr (unknownTab tab) <->
   moduleTabLookup !! tab = None).
Proof.
  split.
  - rewrite <- fetchDetailsForPackage_registered. split; [eauto|].
    intros [e He]. rewrite He. f_equal.
    unfold fetchDetailsForPackage in He.
    repeat match type of He with
    | (if ?c then _ else _) = _ => destruct c; [discriminate He|]
    end. now injection He.
  - rewrite <- fetchDetailsForModule_registered. split; [eauto|].
    intros [e He]. rewrite He. f_equal.
    unfold fetchDetailsForModule in He.
    repeat match type of He with
    | (if ?c then _ else _) = _ => destruct c; [discriminate He|]
    end. now injection He.
Qed.

Lemma selected_package_tab_fetcher `{T : ThirdParty}
    (tab : string) (isRedistributable : bool) :
  exists f,
    fetchDetailsForPackage
      (fst (fst (servePackagePage_tab tab isRedistributable))) = inl f.
Proof.
  unfold servePackagePage_tab.
  destruct (packageTabLookup !! tab) as [settings|] eqn:E.
  - simpl. destruct (fetchDetailsForPackage tab) as [f|e] eqn:Hf; [eauto|].
    assert (Habs : packageTabLookup !! tab = None)
      by (apply fetchDetailsForPackage_registered; eauto).
    congruence.
  - destruct isRedistributable; simpl; eauto.
Qed.

Lemma selected_module_tab_fetcher `{T : ThirdParty}
    (tab : string) (isRedistributable : bool) :
  exists f,
    fetchDetailsForModule
      (fst (fst (handleModuleDetails_tab tab isRedistributable))) = inl f.
Proof.
  unfold handleModuleDetails_tab.
  destruct (moduleTabLookup !! tab) as [settings|] eqn:E.
  - simpl. destruct (fetchDetailsForModule tab) as [f|e] eqn:Hf; [eauto|].
    assert (Habs : moduleTabLookup !! tab = None)
      by (apply fetchDetailsForModule_registered; eauto).
    congruence.
  - simpl. eauto.
Qed.

(** X14: whatever tab is requested, the page handlers end up with a tab
    that is registered under its own name, a registered request being kept
    as it is, and for which the switch has a fetcher: the unknown-tab error
    cannot come out of a page handler.  [canShowDetails] is true exactly
    for a redistributable entity or an always-shown tab. *)
Theorem selected_tab_is_served `{T : ThirdParty}
    (tab : string) (isRedistributable : bool) :
  (let '(tab', settings, canShowDetails) :=
     servePackagePage_tab tab isRedistributable in
   packageTabLookup !! tab' = Some settings /\ Name settings = tab' /\
   (is_Some (packageTabLookup !! tab) -> tab' = tab) /\
   (exists f, fetchDetailsForPackage tab' = inl f) /\
   canShowDetails = isRedistributable || AlwaysShowDetails settings) /\
  (let '(tab', settings, canShowDetails) :=
     handleModuleDetails_tab tab isRedistributable in
   moduleTabLookup !! tab' = Some settings /\ Name settings = tab' /\
   (is_Some (moduleTabLookup !! tab) -> tab' = tab) /\
   (exists f, fetchDetailsForModule tab' = inl f) /\
   canShowDetails = isRedistributable || AlwaysShowDetails settings).
Proof.
  split.
  - unfold servePackagePage_tab.
    destruct (packageTabLookup !! tab) as [settings|] eqn:E.
    + destruct (initTabLookup_Some _ _ _ E) as [_ Hname].
      repeat split; auto.
      destruct (fetchDetailsForPackage tab) as [f|e] eqn:Hf; [eauto|].
      assert (Habs : packageTabLookup !! tab = None)
        by (apply fetchDetailsForPackage_registered; eauto).
      congruence.
    + destruct isRedistributable; repeat split; eauto;
        intros H; now apply is_Some_None in H.
  - unfold handleModuleDetails_tab.
    destruct (moduleTabLookup !! tab) as [settings|] eqn:E.
    + destruct (initTabLookup_Some _ _ _ E) as [_ Hname].
      repeat split; auto.
      destruct (fetchDetailsForModule tab) as [f|e] eqn:Hf; [eauto|].
      assert (Habs : moduleTabLookup !! tab = None)
        by (apply fetchDetailsForModule_registered; eauto).
      congruence.
    + repeat split; eauto; intros H; now apply is_Some_None in H.
Qed.

(** X15: the default tab and hidden details.  For a tab name that is not
    registered, a package page always shows details, redistributable or
    not, because the fallback for a package that is not redistributable is
    the always-shown [subdirectories]; a module page shows details only
    for a redistributable module, because its fallback [readme] is not
    always shown. *)
Theorem default_tab_details (tab : string) (isRedistributable : bool) :
  (packageTabLookup !! tab = None ->
   snd (servePackagePage_tab tab isRedistributable) = true) /\
  (moduleTabLookup !! tab = None ->
   snd (handleModuleDetails_tab tab isRedistributable) = isRedistributable).
Proof.
  split; intros Habsent.
  - unfold servePackagePage_tab. rewrite Habsent.
    now destruct isRedistributable.
  - unfold handleModuleDetails_tab. rewrite Habsent.
    now destruct isRedistributable.
Qed.

End TabFacts.

(** ** The module handler *)

Section ModuleHandlerProperties.
Context `{T : ThirdParty} {World Pkg Lic : Type}
  `{D : !DataSource World Pkg} `{MS : !ModuleHandler.ModuleSource World Lic}.

(** X16: an excluded module gets the error page.  When the URL path,
    without its [/mod] prefix, parses, the version is the latest sentinel
    or valid, and the data source excludes the path, the module handler
    answers with the error page of status NotFound and no payload, from the
    state the exclusion check left and for every requested tab; the
    package handler, on the same condition, goes to the directory page. *)
Theorem excluded_module_error_page
    (urlPath tab path modulePath version : string) (w w1 : World) :
  parseDetailsURLPath (TrimPrefix urlPath "/mod")
  = Ok (path, modulePath, version) ->
  version = LatestVersion \/ semver_IsValid version = true ->
  IsExcluded path w = ((true, None), w1) ->
  ModuleHandler.handleModuleDetails urlPath tab w
  = (ModuleHandler.serveErrorPage StatusNotFound None, w1).
Proof.
  intros Hparse Hvalid Hexcl.
  unfold ModuleHandler.handleModuleDetails. rewrite Hparse.
  unfold fetchPackageOrModule.
  rewrite version_check_passes by assumption.
  unfold bind, ret, call. simpl. rewrite Hexcl. reflexivity.
Qed.

(** X17: the module page.  When the path is not excluded, the version
    information is found at the first lookup, the licenses are read and no
    fetcher fails, the handler serves the template of the selected tab,
    and the page has details exactly when [canShowDetails] holds; no tab
    name, registered or not, leads to the unknown-tab error. *)
Theorem module_page_served
    (urlPath tab path modulePath version : string) (w w1 w2 w3 : World)
    (vi : ModuleHandler.VersionInfo) (licenses : list Lic) :
  parseDetailsURLPath (TrimPrefix urlPath "/mod")
  = Ok (path, modulePath, version) ->
  version = LatestVersion \/ semver_IsValid version = true ->
  IsExcluded path w = ((false, None), w1) ->
  ModuleHandler.GetVersionInfo path version w1 = ((Some vi, None), w2) ->
  ModuleHandler.GetModuleLicenses (ModuleHandler.ModulePath vi)
    (ModuleHandler.Version vi) w2 = ((licenses, None), w3) ->
  (forall f, fst (ModuleHandler.runFetcher f vi licenses w3) = None) ->
  let '(tab', settings, canShowDetails) :=
    handleModuleDetails_tab tab (ModuleHandler.AreRedistributable licenses) in
  fst (ModuleHandler.handleModuleDetails urlPath tab w)
  = ModuleHandler.servePage (TemplateName settings) tab' settings
      canShowDetails canShowDetails.
Proof.
  intros Hparse Hvalid Hexcl Hvi Hlic Hfetch.
  pose proof (TabFacts.selected_module_tab_fetcher tab
                (ModuleHandler.AreRedistributable licenses)) as Hsel.
  unfold ModuleHandler.handleModuleDetails. rewrite Hparse.
  unfold fetchPackageOrModule.
  rewrite version_check_passes by assumption.
  unfold bind, ret, call, assign. simpl. rewrite Hexcl. simpl.
  rewrite Hvi. simpl. rewrite Hlic.
  destruct (handleModuleDetails_tab tab
              (ModuleHandler.AreRedistributable licenses))
    as [[tab' settings] canShow].
  destruct Hsel as [f Hf]. simpl in Hf.
  destruct canShow; [|reflexivity].
  rewrite Hf. specialize (Hfetch f).
  destruct (ModuleHandler.runFetcher f vi licenses w3) as [err w4].
  simpl in Hfetch. now subst err.
Qed.

(** X18: the standard-library alias.  The URL that [constructModuleURL]
    builds for the standard-library module, at the latest sentinel or at a
    version that starts with the letter v, is handed by the package
    handler to the module handler without a call of the data source, and
    the module handler treats it as it treats the same URL under
    [/mod]. *)
Theorem std_module_url (version tab : string) (w : World) :
  version = LatestVersion \/ HasPrefix version "v" = true ->
  handlePackageDetails (constructModuleURL stdlib_ModulePath version) w
  = (handleModuleDetails, w) /\
  ModuleHandler.handleModuleDetails
    ("/mod" ++ constructModuleURL stdlib_ModulePath version) tab w
  = ModuleHandler.handleModuleDetails
      (constructModuleURL stdlib_ModulePath version) tab w.
Proof.
  intros Hv.
  assert (Hurl : constructModuleURL stdlib_ModulePath version
                 = if String.eqb version LatestVersion then "/std"
                   else "/std@" ++ version).
  { unfold constructModuleURL.
    now destruct (String.eqb version LatestVersion). }
  rewrite Hurl. split.
  - unfold handlePackageDetails.
    destruct (String.eqb_spec version LatestVersion) as [-> | Hl];
      [reflexivity|].
    destruct Hv as [-> | Hv]; [congruence|].
    change (String.eqb ("/std@" ++ version) "/") with false.
    change (HasPrefix ("/std@" ++ version) "/std@v")
      with (HasPrefix version "v").
    rewrite Hv. now rewrite orb_true_r.
  - unfold ModuleHandler.handleModuleDetails.
    now destruct (String.eqb version LatestVersion).
Qed.

End ModuleHandlerProperties.

(** ** Titles and elapsed time *)

Module PathFacts.
Import GoStringsFacts SplitFacts MoreStringFacts.

(** The last separator cuts a string into a part before it and a part
    without separator after it. *)
Lemma LastIndexByte_spec (s : string) (c : ascii) :
  (GoPath.LastIndexByte s c = (-1)%Z /\ Count s c = 0%nat) \/
  (exists a b, s = a ++ String c b /\ Count b c = 0%nat /\
               GoPath.LastIndexByte s c = Z.of_nat (len a)).
Proof.
  induction s as [|x s IH]; [now left|].
  simpl. destruct IH as [[-> Hc] | (a & b & -> & Hb & ->)].
  - simpl. destruct (Ascii.eqb_spec x c) as [-> | Hx].
    + right. exists "", s. now repeat split.
    + left. now rewrite Hc.
  - right. exists (String x a), b. split; [reflexivity|]. split; [assumption|].
    destruct (Z.eqb_spec (Z.of_nat (len a)) (-1)); [lia|].
    simpl. unfold len. simpl. lia.
Qed.

Lemma Split_no_slash (s : string) :
  Count s "/"%char = 0%nat -> GoPath.Split s = ("", s).
Proof.
  intros H. unfold GoPath.Split.
  destruct (LastIndexByte_spec s "/"%char) as [[-> _] | (a & b & -> & _ & _)];
    [reflexivity|].
  rewrite Count_app in H. simpl in H. lia.
Qed.

Lemma Split_last_slash (a b : string) :
  Count b "/"%char = 0%nat ->
  GoPath.Split (a ++ String "/" b) = (a ++ "/", b).
Proof.
  intros Hb. unfold GoPath.Split.
  assert (Hi : GoPath.LastIndexByte (a ++ String "/" b) "/"%char
               = Z.of_nat (len a)).
  { induction a as [|x a IH]; simpl.
    - destruct (LastIndexByte_spec b "/"%char)
        as [[-> _] | (a' & b' & -> & _ & _)]; [reflexivity|].
      rewrite Count_app in Hb. simpl in Hb. lia.
    - rewrite IH. destruct (Z.eqb_spec (Z.of_nat (len a)) (-1)); [lia|].
      simpl. unfold len. simpl. lia. }
  rewrite Hi.
  replace (Z.to_nat (Z.of_nat (len a) + 1)) with (len (a ++ "/"))
    by (rewrite len_app; unfold len; simpl; lia).
  change (a ++ String "/" b) with (a ++ "/" ++ b).
  rewrite <- app_assoc. now rewrite take_app, drop_app.
Qed.

(** The second result of [path.Split] holds no slash. *)
Lemma Split_base_no_slash (s : string) :
  Count (snd (GoPath.Split s)) "/"%char = 0%nat.
Proof.
  destruct (LastIndexByte_spec s "/"%char) as [[_ Hc] | (a & b & -> & Hb & _)].
  - now rewrite Split_no_slash.
  - now rewrite Split_last_slash.
Qed.

End PathFacts.

Section TitleProperties.
Variable SplitPathVersion : string -> string * string * bool.
Import GoStringsFacts PathFacts.

(** X19: [effectiveName] on every package.  It panics exactly for a
    package named [main] whose path has fewer than three bytes (the slice
    of the last three bytes is out of range) and never returns an error;
    for a package named otherwise it is the package name; for a command
    it holds no slash; and for a command whose path ends in [/v1] it is the
    last element of the path before [/v1], whatever
    [module.SplitPathVersion] answers. *)
Theorem effectiveName_outcome (pkg : Internal.Package) :
  (effectiveName SplitPathVersion pkg = Panic <->
   Internal.Name pkg = "main" /\ (len (Internal.Path pkg) < 3)%nat) /\
  (forall e, effectiveName SplitPathVersion pkg <> Err e) /\
  (Internal.Name pkg <> "main" ->
   effectiveName SplitPathVersion pkg = Ok (Internal.Name pkg)) /\
  (Internal.Name pkg = "main" ->
   forall name, effectiveName SplitPathVersion pkg = Ok name ->
   Contains name "/" = false) /\
  (Internal.Name pkg = "main" ->
   forall dir elem, Internal.Path pkg = dir ++ "/" ++ elem ++ "/v1" ->
   Contains elem "/" = false ->
   effectiveName SplitPathVersion pkg = Ok elem).
Proof.
  unfold effectiveName.
  destruct (String.eqb_spec (Internal.Name pkg) "main") as [Hmain | Hmain];
    simpl negb; cbv iota.
  - destruct (Nat.ltb_spec (len (Internal.Path pkg)) 3) as [Hlen | Hlen].
    + split; [tauto|]. split; [discriminate|]. split; [tauto|].
      split; [discriminate|].
      intros _ dir elem Hpath _. exfalso.
      rewrite Hpath, !len_app in Hlen. unfold len in Hlen. simpl in Hlen. lia.
    + split; [split; [discriminate | intros [_ H]; lia]|].
      split; [discriminate|]. split; [tauto|]. split.
      * intros _ name [= <-]. apply Contains_byte, Split_base_no_slash.
      * intros _ dir elem Hpath Helem. apply Contains_byte in Helem.
        rewrite Hpath.
        replace (dir ++ "/" ++ elem ++ "/v1") with ((dir ++ "/" ++ elem) ++ "/v1")
          by (now rewrite !app_assoc).
        replace (len ((dir ++ "/" ++ elem) ++ "/v1") - 3)%nat
          with (len (dir ++ "/" ++ elem))
          by (rewrite (len_app _ "/v1"); unfold len; simpl; lia).
        rewrite drop_app, take_app. simpl String.eqb. cbv iota.
        change (dir ++ "/" ++ elem) with (dir ++ String "/" elem).
        now rewrite Split_last_slash.
  - split; [split; [discriminate | tauto]|].
    split; [discriminate|]. split; [reflexivity|]. split; tauto.
Qed.

(** X20: [packageTitle].  A package that is not named [main] is titled
    with its name; a command whose path ends in [/v1] is titled with the
    path element before [/v1]; and the title of a command panics together
    with [effectiveName], on a path of fewer than three bytes. *)
Theorem packageTitle_cases (pkg : Internal.Package) :
  (Internal.Name pkg <> "main" ->
   packageTitle SplitPathVersion pkg = Ok ("Package " ++ Internal.Name pkg)) /\
  (Internal.Name pkg = "main" ->
   forall dir elem, Internal.Path pkg = dir ++ "/" ++ elem ++ "/v1" ->
   Contains elem "/" = false ->
   packageTitle SplitPathVersion pkg = Ok ("Command " ++ elem)) /\
  (Internal.Name pkg = "main" -> (len (Internal.Path pkg) < 3)%nat ->
   packageTitle SplitPathVersion pkg = Panic).
Proof.
  unfold packageTitle, effectiveName.
  destruct (String.eqb_spec (Internal.Name pkg) "main") as [Hmain | Hmain];
    simpl negb; cbv iota; (split; [tauto|]); (split; [|intros ? Hlen]);
    try tauto.
  - intros _ dir elem Hpath Helem. apply Contains_byte in Helem.
    assert (Hlen : (len (Internal.Path pkg) <? 3)%nat = false).
    { apply Nat.ltb_ge. rewrite Hpath, !len_app. unfold len. simpl. lia. }
    rewrite Hlen, Hpath.
    replace (dir ++ "/" ++ elem ++ "/v1") with ((dir ++ "/" ++ elem) ++ "/v1")
      by (now rewrite !app_assoc).
    replace (len ((dir ++ "/" ++ elem) ++ "/v1") - 3)%nat
      with (len (dir ++ "/" ++ elem))
      by (rewrite (len_app _ "/v1"); unfold len; simpl; lia).
    rewrite drop_app, take_app. simpl String.eqb. cbv iota.
    change (dir ++ "/" ++ elem) with (dir ++ String "/" elem).
    now rewrite Split_last_slash.
  - apply Nat.ltb_lt in Hlen. now rewrite Hlen.
Qed.

(** X25: the suffix of a package header.  A package below its module
    shows its path relative to the module; a package at the module root
    that is not a command shows its name marked [(root)]; and a package
    whose path does not start with the module path, as in the standard
    library, shows its whole path. *)
Theorem createPackage_suffix_cases (pkg : Internal.Package)
    (modulePath : string) :
  (forall rest, rest <> "" ->
   Internal.Path pkg = modulePath ++ "/" ++ rest ->
   createPackage_suffix SplitPathVersion pkg modulePath = Ok rest) /\
  (Internal.Path pkg = modulePath -> Internal.Name pkg <> "main" ->
   createPackage_suffix SplitPathVersion pkg modulePath
   = Ok (Internal.Name pkg ++ " (root)")) /\
  (HasPrefix (Internal.Path pkg) modulePath = false ->
   HasPrefix (Internal.Path pkg) "/" = false -> Internal.Path pkg <> "" ->
   createPackage_suffix SplitPathVersion pkg modulePath
   = Ok (Internal.Path pkg)).
Proof.
  unfold createPackage_suffix. split; [|split].
  - intros rest Hrest ->. rewrite TrimPrefix_app.
    change (TrimPrefix ("/" ++ rest) "/") with rest.
    apply String.eqb_neq in Hrest. now rewrite Hrest.
  - intros -> Hname.
    rewrite <- (app_empty_r modulePath) at 1. rewrite TrimPrefix_app.
    change (String.eqb (TrimPrefix "" "/") "") with true. cbv iota.
    unfold effectiveName. apply String.eqb_neq in Hname. rewrite Hname.
    reflexivity.
  - intros Hmod Hslash Hne.
    assert (Hs : TrimPrefix (TrimPrefix (Internal.Path pkg) modulePath) "/"
                 = Internal.Path pkg)
      by (unfold TrimPrefix; rewrite Hmod, Hslash; reflexivity).
    rewrite Hs. apply String.eqb_neq in Hne. now rewrite Hne.
Qed.

End TitleProperties.

(** X21: [elapsedTime] by the hour.  One hour reads [1 hour ago]; any
    other count below six, zero and the negative counts of a date in the
    future included, reads as that count of hours; six to 23 hours read
    [today]; 24 to 47 hours read [1 day ago]; 48 to 143 hours read as two
    to five days; from 144 hours on the formatted date is shown. *)
Theorem elapsedTime_ranges (elapsedHours : Z) (formatted : string) :
  (elapsedHours = 1 -> elapsedTime elapsedHours formatted = "1 hour ago")%Z /\
  (elapsedHours < 6 -> elapsedHours <> 1 ->
   elapsedTime elapsedHours formatted = Itoa elapsedHours ++ " hours ago")%Z /\
  (6 <= elapsedHours < 24 -> elapsedTime elapsedHours formatted = "today")%Z /\
  (24 <= elapsedHours < 48 ->
   elapsedTime elapsedHours formatted = "1 day ago")%Z /\
  (48 <= elapsedHours < 144 ->
   elapsedTime elapsedHours formatted
   = Itoa (elapsedHours / 24) ++ " days ago" /\
   2 <= elapsedHours / 24 <= 5)%Z /\
  (144 <= elapsedHours -> elapsedTime elapsedHours formatted = formatted)%Z.
Proof.
  unfold elapsedTime.
  destruct (Z.eqb_spec elapsedHours 1) as [-> | H1].
  { repeat split; intros; try lia; reflexivity. }
  destruct (Z.ltb_spec elapsedHours 6) as [H6 | H6].
  { repeat split; intros; try lia; reflexivity. }
  rewrite Z.quot_div_nonneg by lia.
  assert (Hdiv : (24 * (elapsedHours / 24) <= elapsedHours
                  < 24 * (elapsedHours / 24) + 24)%Z).
  { pose proof (Z.div_mod elapsedHours 24 ltac:(lia)).
    pose proof (Z.mod_pos_bound elapsedHours 24 ltac:(lia)). lia. }
  destruct (Z.ltb_spec (elapsedHours / 24) 1);
    [repeat split; intros; try lia; reflexivity|].
  destruct (Z.eqb_spec (elapsedHours / 24) 1);
    [repeat split; intros; try lia; reflexivity|].
  destruct (Z.ltb_spec (elapsedHours / 24) 6);
    repeat split; intros; try lia; reflexivity.
Qed.

(** ** Breadcrumbs *)

Module BreadcrumbFacts.
Import GoStringsFacts SplitFacts MoreStringFacts PathFacts.

Lemma cleanStep_real (rooted : bool) (out : list string) (dotdot : nat)
    (seg : string) :
  realSegment seg ->
  GoPath.cleanStep rooted (out, dotdot) seg = ((out ++ [seg])%list, dotdot).
Proof.
  intros (H1 & H2 & H3). unfold GoPath.cleanStep.
  apply String.eqb_neq in H1, H2, H3. now rewrite H1, H2, H3.
Qed.

Lemma foldl_cleanStep_real (rooted : bool) (segs out : list string)
    (dotdot : nat) :
  Forall realSegment segs ->
  foldl (GoPath.cleanStep rooted) (out, dotdot) segs
  = ((out ++ segs)%list, dotdot).
Proof.
  revert out. induction segs as [|seg segs IH]; intros out Hall.
  - now rewrite List.app_nil_r.
  - inversion Hall as [|? ? Hseg Hrest]; subst.
    change (foldl (GoPath.cleanStep rooted) (out, dotdot) (seg :: segs))
      with (foldl (GoPath.cleanStep rooted)
              (GoPath.cleanStep rooted (out, dotdot) seg) segs).
    rewrite cleanStep_real by assumption. rewrite IH by assumption.
    now rewrite <- List.app_assoc.
Qed.

Lemma cleanPath_nonempty (p : string) : cleanPath p -> p <> "".
Proof.
  intros H ->. unfold cleanPath in H. cbn in H.
  inversion H as [|? ? [Hne _] _]. congruence.
Qed.

Lemma cleanPath_not_rooted (p x : string) :
  cleanPath p -> HasPrefix (p ++ x) "/" = false.
Proof.
  intros H. pose proof (cleanPath_nonempty p H) as Hne.
  destruct p as [|a p]; [congruence|]. simpl.
  destruct (Ascii.eqb_spec a "/"%char) as [-> | _]; [|reflexivity].
  exfalso. unfold cleanPath in H.
  change (String "/" p) with ("" ++ String "/" p) in H.
  rewrite Split_first_sep in H by reflexivity.
  inversion H as [|? ? [Hempty _] _]. congruence.
Qed.

Lemma cleanPath_below (m e : string) :
  cleanPath (m ++ "/" ++ e) <-> cleanPath m /\ cleanPath e.
Proof.
  unfold cleanPath. change (m ++ "/" ++ e) with (m ++ String "/" e).
  rewrite Split_app_sep. apply Forall_app.
Qed.

(** [path.Clean] removes the trailing slash of a clean path and nothing
    else. *)
Lemma Clean_trailing_slash (m : string) :
  cleanPath m -> GoPath.Clean (m ++ "/") = m.
Proof.
  intros Hm. pose proof (cleanPath_nonempty m Hm) as Hne.
  unfold GoPath.Clean.
  assert (Happ : m ++ "/" <> "") by (destruct m; [congruence | discriminate]).
  apply String.eqb_neq in Happ. rewrite Happ.
  rewrite cleanPath_not_rooted by assumption.
  change (m ++ "/") with (m ++ String "/" "").
  rewrite Split_app_sep.
  rewrite foldl_app, foldl_cleanStep_real by exact Hm.
  simpl. rewrite Join_Split.
  apply String.eqb_neq in Hne. now rewrite Hne.
Qed.

Lemma Dir_below (m e : string) :
  cleanPath m -> Count e "/"%char = 0%nat ->
  GoPath.Dir (m ++ "/" ++ e) = m.
Proof.
  intros Hm He. unfold GoPath.Dir.
  change (m ++ "/" ++ e) with (m ++ String "/" e).
  rewrite Split_last_slash by assumption. simpl.
  now apply Clean_trailing_slash.
Qed.

Lemma Dir_no_slash (p : string) :
  Count p "/"%char = 0%nat -> GoPath.Dir p = ".".
Proof.
  intros H. unfold GoPath.Dir. now rewrite Split_no_slash.
Qed.

(** The directory of a clean path of two bytes or more is shorter than
    the path. *)
Lemma Dir_shorter (p : string) :
  cleanPath p -> (2 <= len p)%nat -> (len (GoPath.Dir p) < len p)%nat.
Proof.
  intros Hp Hlen.
  destruct (LastIndexByte_spec p "/"%char)
    as [[_ Hc] | (a & b & -> & Hb & _)].
  - rewrite Dir_no_slash by assumption. unfold len at 1. simpl. lia.
  - change (a ++ String "/" b) with (a ++ "/" ++ b) in *.
    apply cleanPath_below in Hp as [Ha _].
    rewrite Dir_below by assumption.
    rewrite !len_app. unfold len at 3. simpl. lia.
Qed.

Lemma stripTrailingSlashes_no_slash (s : string) :
  Count s "/"%char = 0%nat -> GoPath.stripTrailingSlashes s = s.
Proof.
  induction s as [|a s IH]; [reflexivity|]. simpl.
  destruct (Ascii.eqb a "/"%char); simpl; [lia|].
  intros H. rewrite IH by assumption. now rewrite andb_false_r.
Qed.

Lemma stripTrailingSlashes_app (x y : string) :
  GoPath.stripTrailingSlashes y <> "" ->
  GoPath.stripTrailingSlashes (x ++ y) = x ++ GoPath.stripTrailingSlashes y.
Proof.
  intros Hy. induction x as [|a x IH]; [reflexivity|]. simpl.
  rewrite IH.
  assert (Hne : String.eqb (x ++ GoPath.stripTrailingSlashes y) "" = false).
  { apply String.eqb_neq. destruct x; [exact Hy | discriminate]. }
  now rewrite Hne.
Qed.

Lemma Base_below (m e : string) :
  Count e "/"%char = 0%nat -> e <> "" ->
  GoPath.Base (m ++ "/" ++ e) = e.
Proof.
  intros He Hne. unfold GoPath.Base.
  assert (Happ : m ++ "/" ++ e <> "") by (destruct m; discriminate).
  apply String.eqb_neq in Happ. rewrite Happ.
  assert (Hstrip : GoPath.stripTrailingSlashes (m ++ "/" ++ e) = m ++ "/" ++ e).
  { change (m ++ "/" ++ e) with (m ++ String "/" e).
    assert (Hse : GoPath.stripTrailingSlashes e = e)
      by now apply stripTrailingSlashes_no_slash.
    rewrite stripTrailingSlashes_app.
    - simpl. rewrite Hse. apply String.eqb_neq in Hne. now rewrite Hne.
    - simpl. rewrite Hse. apply String.eqb_neq in Hne. now rewrite Hne. }
  rewrite Hstrip.
  change (m ++ "/" ++ e) with (m ++ String "/" e).
  pose proof (Split_last_slash m e He) as Hsplit.
  unfold GoPath.Split in Hsplit.
  injection Hsplit as _ Hdrop.
  destruct (LastIndexByte_spec (m ++ String "/" e) "/"%char)
    as [[_ Hc] | (a & b & Heq & Hb & Hi)].
  - rewrite Count_app in Hc. simpl in Hc. lia.
  - rewrite Hi in *. destruct (Z.leb_spec 0 (Z.of_nat (len a))); [|lia].
    rewrite Hdrop. apply String.eqb_neq in Hne. now rewrite Hne.
Qed.

Lemma breadcrumbDirs_step (fuel : nat) (dir : string) (minLen : Z) :
  breadcrumbDirs (S fuel) dir minLen =
  if (minLen <? Z.of_nat (len dir))%Z && (len (GoPath.Dir dir) <? len dir)%nat
  then dir :: breadcrumbDirs fuel (GoPath.Dir dir) minLen
  else [].
Proof. reflexivity. Qed.

(** The fuel of the model is enough: with more fuel than the directory
    is long the loop has ended by itself, and more fuel changes
    nothing. *)
Lemma breadcrumbDirs_fuel (fuel extra : nat) (dir : string) (minLen : Z) :
  (len dir < fuel)%nat ->
  breadcrumbDirs (fuel + extra) dir minLen = breadcrumbDirs fuel dir minLen.
Proof.
  revert dir. induction fuel as [|fuel IH]; intros dir Hlen; [lia|].
  change (S fuel + extra)%nat with (S (fuel + extra)).
  rewrite !breadcrumbDirs_step.
  destruct (minLen <? Z.of_nat (len dir))%Z; [|reflexivity].
  destruct (Nat.ltb_spec (len (GoPath.Dir dir)) (len dir)); [|reflexivity].
  simpl. f_equal. apply IH. lia.
Qed.

End BreadcrumbFacts.

Section BreadcrumbProperties.
Import GoStringsFacts SplitFacts MoreStringFacts PathFacts BreadcrumbFacts.

(** X22: [breadcrumbPath] panics on a package path of fewer than two
    bytes, whatever the module path and the version: the directory of such
    a path is not shorter than the path, the first loop collects nothing,
    and [dirs[0]] is out of range. *)
Theorem breadcrumb_short_path_panics (pkgPath modPath version : string) :
  (len pkgPath < 2)%nat -> breadcrumbPath pkgPath modPath version = Panic.
Proof.
  intros Hlen. unfold breadcrumbPath.
  set (minLen := if String.eqb modPath stdlib_ModulePath then 1%Z
                 else (Z.of_nat (len modPath) - 1)%Z).
  assert (Hdirs : breadcrumbDirs (S (len pkgPath)) pkgPath minLen = []).
  { rewrite breadcrumbDirs_step.
    destruct pkgPath as [|a [|b r]].
    - now rewrite andb_false_r.
    - assert (Hdir : len (GoPath.Dir (String a "")) = 1%nat).
      { unfold GoPath.Dir, GoPath.Split. simpl GoPath.LastIndexByte.
        destruct (Ascii.eqb_spec a "/"%char) as [-> | _]; reflexivity. }
      rewrite Hdir. now rewrite andb_false_r.
    - unfold len in Hlen. simpl in Hlen. lia. }
  now rewrite Hdirs.
Qed.

(** X23: the breadcrumb of a module root.  For a clean path of two bytes
    or more that is its own module path, the trail is the one element of
    the current page, showing the whole path, without any link. *)
Theorem breadcrumb_module_root (path version : string) :
  cleanPath path -> (2 <= len path)%nat ->
  breadcrumbPath path path version
  = Ok (breadcrumbDiv [breadcrumbCurrent path]).
Proof.
  intros Hclean Hlen. unfold breadcrumbPath.
  pose proof (Dir_shorter path Hclean Hlen) as Hdir.
  set (minLen := if String.eqb path stdlib_ModulePath then 1%Z
                 else (Z.of_nat (len path) - 1)%Z).
  assert (Hdirs : breadcrumbDirs (S (len path)) path minLen = [path]).
  { replace (S (len path)) with (S (S (len path - 1))) by lia.
    rewrite !breadcrumbDirs_step.
    assert (H1 : (minLen <? Z.of_nat (len path))%Z = true).
    { apply Z.ltb_lt. subst minLen.
      destruct (String.eqb path stdlib_ModulePath); lia. }
    rewrite H1. apply Nat.ltb_lt in Hdir as Hdir'. rewrite Hdir'. simpl andb.
    cbv iota.
    assert (H2 : (minLen <? Z.of_nat (len (GoPath.Dir path)))%Z = false).
    { apply Z.ltb_ge. subst minLen.
      destruct (String.eqb_spec path stdlib_ModulePath) as [-> | _];
        [vm_compute; discriminate | lia]. }
    now rewrite H2. }
  rewrite Hdirs. reflexivity.
Qed.

(** X24: the breadcrumb of a package one level below.  Take a clean
    module path [m] and one more path element [e].  When [m] has two bytes
    or more and is not the standard-library module path, the trail of
    [m/e] is a link to the module, labelled with the whole module path and
    carrying the version unless it is the latest sentinel, and then the
    current page, shown as [e].  In the standard library the trail of
    [a/e], for a single element [a] of two bytes or more, starts with a
    link to the first element [a], not to the module.  When [m] is a single
    byte the first loop stops at [m/e], and in both cases the trail is the
    one element of the current page, showing the whole of [m/e], without
    any link. *)
Theorem breadcrumb_one_below (m e version : string) :
  cleanPath m -> realSegment e -> Contains e "/" = false ->
  ((2 <= len m)%nat -> m <> stdlib_ModulePath ->
   breadcrumbPath (m ++ "/" ++ e) m version
   = Ok (breadcrumbDiv [breadcrumbLink (breadcrumbHref m version) m;
                        breadcrumbCurrent e])) /\
  ((2 <= len m)%nat -> Contains m "/" = false ->
   breadcrumbPath (m ++ "/" ++ e) stdlib_ModulePath version
   = Ok (breadcrumbDiv [breadcrumbLink (breadcrumbHref m version) m;
                        breadcrumbCurrent e])) /\
  (len m = 1%nat ->
   breadcrumbPath (m ++ "/" ++ e) m version
   = Ok (breadcrumbDiv [breadcrumbCurrent (m ++ "/" ++ e)]) /\
   breadcrumbPath (m ++ "/" ++ e) stdlib_ModulePath version
   = Ok (breadcrumbDiv [breadcrumbCurrent (m ++ "/" ++ e)])).
Proof.
  intros Hm He Hslash. apply Contains_byte in Hslash.
  pose proof (Dir_below m e Hm Hslash) as Hbelow.
  assert (Hbase : GoPath.Base (m ++ "/" ++ e) = e)
    by (apply Base_below; [assumption | apply He]).
  assert (Hp : len (m ++ "/" ++ e) = S (len m + len e)).
  { rewrite !len_app. unfold len at 2. simpl. lia. }
  assert (Hdirs : forall minLen : Z,
    (2 <= len m)%nat ->
    (minLen < Z.of_nat (len m))%Z ->
    (Z.of_nat (len (GoPath.Dir m)) <= minLen)%Z ->
    breadcrumbDirs (S (len (m ++ "/" ++ e))) (m ++ "/" ++ e) minLen
    = [m ++ "/" ++ e; m]).
  { intros minLen Hlen Hlo Hhi. rewrite Hp.
    pose proof (Dir_shorter m Hm Hlen) as Hdir.
    replace (S (S (len m + len e))) with (S (S (S (len m + len e - 1))))
      by lia.
    rewrite !breadcrumbDirs_step. rewrite Hbelow, Hp.
    assert (H1 : (minLen <? Z.of_nat (S (len m + len e)))%Z = true)
      by (apply Z.ltb_lt; lia).
    assert (H2 : (len m <? S (len m + len e))%nat = true)
      by (apply Nat.ltb_lt; lia).
    assert (H3 : (minLen <? Z.of_nat (len m))%Z = true)
      by (apply Z.ltb_lt; lia).
    assert (H4 : (len (GoPath.Dir m) <? len m)%nat = true)
      by (apply Nat.ltb_lt; lia).
    assert (H5 : (minLen <? Z.of_nat (len (GoPath.Dir m)))%Z = false)
      by (apply Z.ltb_ge; lia).
    rewrite H1, H2, H3, H4, H5. reflexivity. }
  assert (Hone : forall minLen : Z,
    len m = 1%nat -> (minLen <= 1)%Z ->
    breadcrumbDirs (S (len (m ++ "/" ++ e))) (m ++ "/" ++ e) minLen
    = [m ++ "/" ++ e]).
  { intros minLen Hlen Hlo. rewrite Hp.
    assert (Hdir : len (GoPath.Dir m) = 1%nat).
    { destruct m as [|a [|b r]]; try discriminate Hlen.
      unfold GoPath.Dir, GoPath.Split. simpl GoPath.LastIndexByte.
      destruct (Ascii.eqb_spec a "/"%char) as [-> | _]; reflexivity. }
    replace (S (S (len m + len e))) with (S (S (S (len m + len e - 1))))
      by lia.
    rewrite !breadcrumbDirs_step. rewrite Hbelow, Hp, Hdir, Hlen.
    assert (H1 : (minLen <? Z.of_nat (S (1 + len e)))%Z = true)
      by (apply Z.ltb_lt; lia).
    rewrite H1. change (1 <? 1)%nat with false.
    rewrite andb_false_r. reflexivity. }
  split; [|split].
  - intros Hlen Hstd. unfold breadcrumbPath.
    apply String.eqb_neq in Hstd. rewrite Hstd.
    pose proof (Dir_shorter m Hm Hlen) as Hdir.
    rewrite Hdirs by lia.
    cbn [length replicate Nat.sub Nat.ltb Nat.leb seq foldl].
    unfold breadcrumbElem.
    cbn [lookup list_lookup length Nat.sub Nat.eqb negb].
    rewrite Hbase. reflexivity.
  - intros Hlen Hm_slash. apply Contains_byte in Hm_slash.
    unfold breadcrumbPath.
    change (String.eqb stdlib_ModulePath stdlib_ModulePath) with true.
    cbv iota.
    assert (Hd : GoPath.Dir m = ".") by now apply Dir_no_slash.
    rewrite Hdirs by (rewrite ?Hd; change (len ".") with 1%nat; lia).
    cbn [length replicate Nat.sub Nat.ltb Nat.leb seq foldl].
    unfold breadcrumbElem.
    cbn [lookup list_lookup length Nat.sub Nat.eqb negb].
    rewrite Hbase. reflexivity.
  - intros Hlen. split.
    + unfold breadcrumbPath.
      assert (Hstd : String.eqb m stdlib_ModulePath = false).
      { apply String.eqb_neq. intros ->. discriminate Hlen. }
      rewrite Hstd, Hone by lia. reflexivity.
    + unfold breadcrumbPath.
      change (String.eqb stdlib_ModulePath stdlib_ModulePath) with true.
      cbv iota. rewrite Hone by lia. reflexivity.
Qed.

End BreadcrumbProperties.

(** ** More concrete runs *)

Module MoreRuns.
Import Sample SampleModule Runs.

(** [/github.com/x/y@latest/z/w] resolves like [/github.com/x/y]. *)
Lemma latest_suffix_dropped_witness :
  splitDetailsURLPath "/github.com/x/y@latest/z/w"
  = Some ("github.com/x/y", unknownModulePath, LatestVersion) /\
  parseDetailsURLPath "/github.com/x/y@latest/z/w"
  = Ok ("github.com/x/y", unknownModulePath, LatestVersion).
Proof.
  destruct (latest_suffix_dropped (T := thirdParty) "/github.com/x/y" "z/w"
              ("github.com/x/y", unknownModulePath, LatestVersion))
    as [Hsplit Hiff]; [reflexivity|].
  split; [exact Hsplit|]. apply Hiff. vm_compute. reflexivity.
Defined.

(** A versioned URL with a suffix: the module path is known. *)
Lemma parse_result_shape_witness :
  Contains "v1.0.0" "/" = false /\
  CheckImportPath "github.com/x/y/z" = None /\
  ("github.com/x/y" = stdlib_ModulePath \/
   "github.com/x/y" = unknownModulePath \/
   ("v1.0.0" <> LatestVersion /\
    Contains (firstSegment "github.com/x/y/z") "." = true /\
    exists suffix, suffix <> "" /\
      "github.com/x/y/z" = "github.com/x/y" ++ "/" ++ suffix)).
Proof.
  apply (parse_result_shape (T := thirdParty) "/github.com/x/y@v1.0.0/z").
  vm_compute. reflexivity.
Defined.

(** A package below its module, and a package at the module root. *)
Lemma parse_constructPackageURL_module_witness :
  parseDetailsURLPath
    (constructPackageURL "github.com/x/y/z" "github.com/x/y" "v1.0.0")
  = Ok ("github.com/x/y/z", "github.com/x/y", "v1.0.0") /\
  parseDetailsURLPath
    (constructPackageURL "github.com/x/y" "github.com/x/y" "v1.0.0")
  = Ok ("github.com/x/y", unknownModulePath, "v1.0.0").
Proof.
  split.
  - apply (parse_constructPackageURL_module (T := thirdParty)
             "github.com/x/y/z" "github.com/x/y" "v1.0.0");
      try (vm_compute; reflexivity); discriminate.
  - apply (parse_constructPackageURL_module (T := thirdParty)
             "github.com/x/y" "github.com/x/y" "v1.0.0");
      try (vm_compute; reflexivity); discriminate.
Defined.

(** The module URL of [github.com/x/y] at [v1.0.0]. *)
Lemma parse_constructModuleURL_witness :
  constructModuleURL "github.com/x/y" "v1.0.0" = "/mod/github.com/x/y@v1.0.0" /\
  exists modulePath,
    parseDetailsURLPath
      (TrimPrefix (constructModuleURL "github.com/x/y" "v1.0.0") "/mod")
    = Ok ("github.com/x/y", modulePath, "v1.0.0").
Proof.
  split; [vm_compute; reflexivity|].
  apply (parse_constructModuleURL (T := thirdParty) "github.com/x/y" "v1.0.0").
  - vm_compute. reflexivity.
  - right. vm_compute. reflexivity.
Defined.

(** The fetch of [fmt] at [v1.13.0]: two lookups, then SeeOther. *)
Lemma fetch_lookups_witness :
  exists l,
    snd (snd (fetchPackageOrModule (fun p => call (IsExcluded p)) "pkg" "fmt"
                "v1.13.0" (logged (getPackage "fmt")) (w0, ["earlier"])))
    = (["earlier"] ++ l)%list /\
    l = ["v1.13.0"; LatestVersion].
Proof.
  pose proof (fetch_lookups (T := thirdParty) IsExcluded "pkg" "fmt" "v1.13.0"
                (getPackage "fmt") w0 ["earlier"]) as H.
  remember (fetchPackageOrModule (fun p => call (IsExcluded p)) "pkg" "fmt"
              "v1.13.0" (logged (getPackage "fmt")) (w0, ["earlier"]))
    as r eqn:E.
  vm_compute in E. subst r. cbv beta iota in H.
  destruct H as (l & Hlog & _ & _ & Hsee & _).
  exists l. split; [exact Hlog | exact (Hsee eq_refl)].
Defined.

(** The fetch of [fmt] at [v1.13.0] ends in SeeOther with a page. *)
Lemma fetch_status_and_page_witness :
  exists epage,
    fst (fetchPackageOrModule IsExcluded "pkg" "fmt" "v1.13.0"
           (getPackage "fmt") w0) = (StatusSeeOther, Some epage).
Proof.
  pose proof (fetch_status_and_page (T := thirdParty) IsExcluded "pkg" "fmt"
                "v1.13.0" (getPackage "fmt") w0) as H.
  destruct (fst (fetchPackageOrModule IsExcluded "pkg" "fmt" "v1.13.0"
                   (getPackage "fmt") w0)) as [code epage] eqn:E.
  destruct H as [_ Hpage].
  assert (Hcode : code = StatusSeeOther)
    by (vm_compute in E; now injection E as <- _).
  destruct (proj2 Hpage (or_intror Hcode)) as [page ->].
  exists page. now rewrite Hcode.
Defined.

(** [1.13] is no version: BadRequest with the search suggestion. *)
Lemma fetch_invalid_version_witness :
  fetchPackageOrModule IsExcluded "pkg" "bad.com/x" "1.13"
    (getPackage "bad.com/x") w0
  = ((StatusBadRequest,
      Some {| Message := Quote "1.13" ++ " is not a valid semantic version.";
              SecondaryMessage := suggestedSearch "bad.com/x" |}), w0).
Proof.
  apply (fetch_invalid_version (T := thirdParty) IsExcluded "pkg" "bad.com/x"
           "1.13" (getPackage "bad.com/x") w0);
    [discriminate | reflexivity].
Defined.


(** The excluded package [bad.com/x] ends in the directory page. *)
Lemma excluded_package_directory_page_witness :
  handlePackageDetails "/bad.com/x@v1.0.0" w0
  = (serveDirectoryPage "bad.com/x" "v1.0.0", w0).
Proof.
  apply (excluded_package_directory_page (T := thirdParty)
           "/bad.com/x@v1.0.0" "bad.com/x" unknownModulePath "v1.0.0" w0 w0);
    try (vm_compute; reflexivity).
  - discriminate.
  - right. reflexivity.
Defined.

(** A URL without version does not notice a broken
    [GetPackageInModuleVersion]; a URL with version and suffix does not
    notice a broken [GetPackage]. *)
Lemma package_lookup_method_witness :
  @handlePackageDetails thirdParty _ _ dataSource "/github.com/x/y" w0
  = @handlePackageDetails thirdParty _ _ brokenInModule "/github.com/x/y" w0 /\
  @handlePackageDetails thirdParty _ _ dataSource "/github.com/x/y@v1.0.0/z" w0
  = @handlePackageDetails thirdParty _ _ brokenGetPackage
      "/github.com/x/y@v1.0.0/z" w0.
Proof.
  split.
  - destruct (package_lookup_method (T := thirdParty) dataSource
                brokenInModule "/github.com/x/y"
                "github.com/x/y" unknownModulePath LatestVersion w0)
      as [H _]; [reflexivity | vm_compute; reflexivity |].
    apply H; [now left | reflexivity].
  - destruct (package_lookup_method (T := thirdParty) dataSource
                brokenGetPackage
                "/github.com/x/y@v1.0.0/z" "github.com/x/y/z" "github.com/x/y"
                "v1.0.0" w0)
      as [_ H]; [reflexivity | vm_compute; reflexivity |].
    apply H; [discriminate | discriminate | reflexivity].
Defined.

(** The tab [doc] of the package registry. *)
Lemma tab_registries_witness :
  packageTabLookup !! "doc"
  = Some {| Name := "doc"; DisplayName := "Doc"; AlwaysShowDetails := false;
            TemplateName := "pkg_doc.tmpl" |}.
Proof.
  apply (proj1 (TabFacts.tab_registries "doc" _)).
  split; [left | reflexivity].
Defined.

(** An unregistered name is unknown to both switches. *)
Lemma fetchers_match_registries_witness :
  fetchDetailsForPackage "bogus" = inr (unknownTab "bogus") /\
  fetchDetailsForModule "bogus" = inr (unknownTab "bogus").
Proof.
  destruct (TabFacts.fetchers_match_registries (T := thirdParty) "bogus")
    as [Hp Hm].
  split; [apply Hp | apply Hm]; vm_compute; reflexivity.
Defined.

(** A registered tab is kept. *)
Lemma selected_tab_is_served_witness :
  fst (fst (servePackagePage_tab "imports" false)) = "imports" /\
  fst (fst (handleModuleDetails_tab "packages" false)) = "packages".
Proof.
  pose proof (TabFacts.selected_tab_is_served (T := thirdParty)
                "imports" false) as [Hp _].
  pose proof (TabFacts.selected_tab_is_served (T := thirdParty)
                "packages" false) as [_ Hm].
  destruct (servePackagePage_tab "imports" false) as [[t s] c] eqn:Ep.
  destruct (handleModuleDetails_tab "packages" false) as [[t' s'] c'] eqn:Em.
  destruct Hp as (_ & _ & Hp & _). destruct Hm as (_ & _ & Hm & _).
  split; [apply Hp | apply Hm]; vm_compute; eauto.
Defined.

(** An unregistered tab on an entity that is not redistributable. *)
Lemma default_tab_details_witness :
  snd (servePackagePage_tab "bogus" false) = true /\
  snd (handleModuleDetails_tab "bogus" false) = false.
Proof.
  destruct (TabFacts.default_tab_details "bogus" false) as [Hp Hm].
  split; [apply Hp | apply Hm]; vm_compute; reflexivity.
Defined.

(** The excluded path as a module. *)
Lemma excluded_module_error_page_witness :
  ModuleHandler.handleModuleDetails "/mod/bad.com/x@v1.0.0" "readme" w0
  = (ModuleHandler.serveErrorPage StatusNotFound None, w0).
Proof.
  apply (excluded_module_error_page (T := thirdParty)
           "/mod/bad.com/x@v1.0.0" "readme" "bad.com/x" unknownModulePath
           "v1.0.0" w0 w0); try (vm_compute; reflexivity).
  right. reflexivity.
Defined.

(** The module [github.com/x/y] with an unregistered tab: its licenses are
    not redistributable, the readme page is served without details. *)
Lemma module_page_served_witness :
  fst (ModuleHandler.handleModuleDetails "/mod/github.com/x/y@v1.0.0"
         "bogus" w0)
  = ModuleHandler.servePage "readme.tmpl" "readme"
      {| Name := "readme"; DisplayName := "README";
         AlwaysShowDetails := false; TemplateName := "readme.tmpl" |}
      false false.
Proof.
  exact (module_page_served (T := thirdParty) (MS := moduleSource)
           "/mod/github.com/x/y@v1.0.0" "bogus" "github.com/x/y"
           unknownModulePath "v1.0.0" w0 w0
           (logCall "version github.com/x/y@v1.0.0" w0)
           (logCall "licenses github.com/x/y@v1.0.0"
              (logCall "version github.com/x/y@v1.0.0" w0))
           {| ModuleHandler.ModulePath := "github.com/x/y";
              ModuleHandler.Version := "v1.0.0" |}
           ["AGPL-3.0"]
           eq_refl (or_intror eq_refl) eq_refl eq_refl eq_refl
           (fun f => eq_refl)).
Defined.

(** [/std@v1.13.0] *)
Lemma std_module_url_witness :
  handlePackageDetails "/std@v1.13.0" w0 = (handleModuleDetails, w0) /\
  ModuleHandler.handleModuleDetails "/mod/std@v1.13.0" "readme" w0
  = ModuleHandler.handleModuleDetails "/std@v1.13.0" "readme" w0.
Proof.
  apply (std_module_url (T := thirdParty) (MS := moduleSource)
           "v1.13.0" "readme" w0).
  right. reflexivity.
Defined.

(** A command at major version one, and a command with a two-byte path. *)
Lemma effectiveName_outcome_witness :
  effectiveName noPathVersion
    {| Internal.Name := "main"; Internal.Path := "a.com/x/cmd/foo/v1" |}
  = Ok "foo" /\
  effectiveName noPathVersion
    {| Internal.Name := "main"; Internal.Path := "go" |} = Panic.
Proof.
  split.
  - destruct (effectiveName_outcome noPathVersion
                {| Internal.Name := "main";
                   Internal.Path := "a.com/x/cmd/foo/v1" |})
      as (_ & _ & _ & _ & H).
    apply (H eq_refl "a.com/x/cmd" "foo"); reflexivity.
  - destruct (effectiveName_outcome noPathVersion
                {| Internal.Name := "main"; Internal.Path := "go" |})
      as (H & _).
    apply H. split; [reflexivity | vm_compute; lia].
Defined.

(** The titles of a library package and of a command. *)
Lemma packageTitle_cases_witness :
  packageTitle noPathVersion
    {| Internal.Name := "json"; Internal.Path := "encoding/json" |}
  = Ok "Package json" /\
  packageTitle noPathVersion
    {| Internal.Name := "main"; Internal.Path := "a.com/x/cmd/foo/v1" |}
  = Ok "Command foo".
Proof.
  split.
  - apply (packageTitle_cases noPathVersion
             {| Internal.Name := "json"; Internal.Path := "encoding/json" |}).
    discriminate.
  - destruct (packageTitle_cases noPathVersion
                {| Internal.Name := "main";
                   Internal.Path := "a.com/x/cmd/foo/v1" |})
      as (_ & H & _).
    apply (H eq_refl "a.com/x/cmd" "foo"); reflexivity.
Defined.

(** [encoding/json] in the standard library and a package below
    [github.com/x/y]. *)
Lemma createPackage_suffix_cases_witness :
  createPackage_suffix noPathVersion
    {| Internal.Name := "json"; Internal.Path := "encoding/json" |}
    stdlib_ModulePath = Ok "encoding/json" /\
  createPackage_suffix noPathVersion
    {| Internal.Name := "z"; Internal.Path := "github.com/x/y/z" |}
    "github.com/x/y" = Ok "z".
Proof.
  split.
  - apply (createPackage_suffix_cases noPathVersion
             {| Internal.Name := "json"; Internal.Path := "encoding/json" |}
             stdlib_ModulePath); [reflexivity | reflexivity | discriminate].
  - apply (proj1 (createPackage_suffix_cases noPathVersion
             {| Internal.Name := "z"; Internal.Path := "github.com/x/y/z" |}
             "github.com/x/y") "z"); [discriminate | reflexivity].
Defined.

(** Three hours ahead, and a hundred hours back. *)
Lemma elapsedTime_ranges_witness :
  elapsedTime (-3) "Jan  2, 2006" = "-3 hours ago" /\
  elapsedTime 100 "Jan  2, 2006" = "4 days ago".
Proof.
  split.
  - apply (elapsedTime_ranges (-3) "Jan  2, 2006"); lia.
  - destruct (elapsedTime_ranges 100 "Jan  2, 2006")
      as (_ & _ & _ & _ & H & _).
    destruct H as [H _]; [lia|]. exact H.
Defined.

(** A one-byte package path. *)
Lemma breadcrumb_short_path_panics_witness :
  breadcrumbPath "a" "a" "v1.0.0" = Panic.
Proof.
  apply (breadcrumb_short_path_panics "a" "a" "v1.0.0").
  vm_compute. lia.
Defined.

Lemma cleanPath_example : cleanPath "example.com".
Proof.
  unfold cleanPath.
  change (GoStrings.Split "example.com" "/"%char) with ["example.com"].
  repeat constructor; discriminate.
Qed.

Lemma cleanPath_encoding : cleanPath "encoding".
Proof.
  unfold cleanPath.
  change (GoStrings.Split "encoding" "/"%char) with ["encoding"].
  repeat constructor; discriminate.
Qed.

(** The root of the module [example.com]. *)
Lemma breadcrumb_module_root_witness :
  breadcrumbPath "example.com" "example.com" "v1.0.0"
  = Ok (breadcrumbDiv [breadcrumbCurrent "example.com"]).
Proof.
  apply (breadcrumb_module_root "example.com" "v1.0.0").
  - exact cleanPath_example.
  - vm_compute. lia.
Defined.

Lemma cleanPath_one_byte : cleanPath "a".
Proof.
  unfold cleanPath.
  change (GoStrings.Split "a" "/"%char) with ["a"].
  repeat constructor; discriminate.
Qed.

(** [example.com/blob] in its module, [encoding/json], and [a/json] below
    a module path of one byte. *)
Lemma breadcrumb_one_below_witness :
  breadcrumbPath "example.com/blob" "example.com" "v1.0.0"
  = Ok (breadcrumbDiv
          [breadcrumbLink "/example.com@v1.0.0" "example.com";
           breadcrumbCurrent "blob"]) /\
  breadcrumbPath "encoding/json" stdlib_ModulePath LatestVersion
  = Ok (breadcrumbDiv
          [breadcrumbLink "/encoding" "encoding"; breadcrumbCurrent "json"]) /\
  breadcrumbPath "a/json" "a" LatestVersion
  = Ok (breadcrumbDiv [breadcrumbCurrent "a/json"]) /\
  breadcrumbPath "a/json" stdlib_ModulePath LatestVersion
  = Ok (breadcrumbDiv [breadcrumbCurrent "a/json"]).
Proof.
  split; [|split].
  - destruct (breadcrumb_one_below "example.com" "blob" "v1.0.0")
      as (H & _ & _);
      [exact cleanPath_example | repeat split; discriminate | reflexivity |].
    apply H; [vm_compute; lia | discriminate].
  - destruct (breadcrumb_one_below "encoding" "json" LatestVersion)
      as (_ & H & _);
      [exact cleanPath_encoding | repeat split; discriminate | reflexivity |].
    apply H; [vm_compute; lia | reflexivity].
  - destruct (breadcrumb_one_below "a" "json" LatestVersion)
      as (_ & _ & H);
      [exact cleanPath_one_byte | repeat split; discriminate | reflexivity |].
    apply H. reflexivity.
Defined.

End MoreRuns.
